(** * ai-agents-engineering: the persona chat loop and the deep-research pipeline

    A shallow embedding of
    - [1_foundations/app.py]: the tool functions, the tool descriptors,
      [Me.handle_tool_call], [Me.system_prompt] and [Me.chat];
    - [2_openai/deep_research/planner_agent.py] and [research_manager.py]:
      [plan_searches], [search], [perform_searches] and the [run] generator.

    The remote language model, the agents' [Runner.run], the functions
    imported from other packages and the scheduler's completion order are
    outside the repository: they are Section variables, so every theorem holds
    for all of their behaviours.  Console prints and the Pushover HTTP request
    made by [push] change nothing the functions below return or store, and are
    not part of the state. *)

From Stdlib Require Import String Ascii List Arith Lia.
From stdpp Require Import base option list gmap strings fin_maps pretty.

Open Scope string_scope.
Open Scope list_scope.
Set Warnings "-register-all".

(** ** Python outcomes: a value or a raised exception *)

(** The exception classes the two programs can meet.  [CancelledError]
    derives from [BaseException] only; the others derive from [Exception]. *)
Inductive exn : Type :=
  | JSONDecodeError
  | TypeError
  | RemoteError (what : string)
  | CancelledError.

Definition is_Exception (e : exn) : bool :=
  match e with
  | CancelledError => false
  | _ => true
  end.

Inductive result (A : Type) : Type :=
  | Ok (a : A)
  | Raise (e : exn).
Arguments Ok {A} a.
Arguments Raise {A} e.

Definition result_bind {A B} (r : result A) (k : A -> result B) : result B :=
  match r with
  | Ok a => k a
  | Raise e => Raise e
  end.

(** Characters a string literal cannot hold directly. *)
Definition nl : string := String "010" EmptyString.
Definition dquote : string := String "034" EmptyString.

(** [x or d] on an optional value whose falsy inhabitants are [None] and [d]. *)
Definition or_else {A} (x : option A) (d : A) : A :=
  match x with
  | Some a => a
  | None => d
  end.

(** Python's [sep.join(parts)]. *)
Fixpoint join (sep : string) (parts : list string) : string :=
  match parts with
  | [] => EmptyString
  | [p] => p
  | p :: rest => p +:+ sep +:+ join sep rest
  end.

(** * 1_foundations/app.py *)
Module App.

(** ** JSON documents and the values the tools return *)

Inductive json : Type :=
  | JNull
  | JBool (b : bool)
  | JNumber (literal : string)
  | JString (s : string)
  | JArray (items : list json)
  | JObject (members : list (string * json)).

(** The text of [tool_call.function.arguments], represented by what
    [json.loads] makes of it: the document it denotes, or text that is not
    JSON. *)
Inductive json_text : Type :=
  | Document (v : json)
  | Malformed (raw : string).

Definition json_loads (s : json_text) : result json :=
  match s with
  | Document v => Ok v
  | Malformed _ => Raise JSONDecodeError
  end.

(** What this module's own functions return: [None] or a [Dict[str, str]]. *)
Inductive pyvalue : Type :=
  | PyNone
  | PyDict (items : list (string * string)).

Definition json_dumps_item (kv : string * string) : string :=
  dquote +:+ fst kv +:+ dquote +:+ ": " +:+ dquote +:+ snd kv +:+ dquote.

(** [json.dumps] with its default separators, on the values above (their
    keys and values hold no character that needs escaping). *)
Definition json_dumps (v : pyvalue) : string :=
  match v with
  | PyNone => "null"
  | PyDict items => "{" +:+ join ", " (map json_dumps_item items) +:+ "}"
  end.

(** ** Tool functions *)

Inductive pyfunction : Type :=
  | push
  | record_user_details
  | record_unknown_question.

(** Parameters without a default, then parameters with one. *)
Definition signature (f : pyfunction) : list string * list string :=
  match f with
  | push => (["text"], [])
  | record_user_details => (["email"], ["name"; "notes"])
  | record_unknown_question => (["question"], [])
  end.

Definition in_strings (k : string) (ks : list string) : bool :=
  existsb (String.eqb k) ks.

(** Python's binding of the keyword call of [f] with the dict [kwargs]: every key names a parameter and every
    parameter without a default is supplied. *)
Definition binds (f : pyfunction) (kwargs : list (string * json)) : bool :=
  let '(required, optional) := signature f in
  forallb (fun k => in_strings k (required ++ optional)) (map fst kwargs)
  && forallb (fun p => in_strings p (map fst kwargs)) required.

(** The value the body returns once the call is bound. *)
Definition body (f : pyfunction) : pyvalue :=
  match f with
  | push => PyNone
  | record_user_details => PyDict [("recorded", "ok")]
  | record_unknown_question => PyDict [("recorded", "ok")]
  end.

(** The call of [f] with [arguments] unpacked as keywords: [arguments] has
    to be a mapping. *)
Definition call (f : pyfunction) (arguments : json) : result pyvalue :=
  match arguments with
  | JObject kwargs => if binds f kwargs then Ok (body f) else Raise TypeError
  | _ => Raise TypeError
  end.

(** ** Tool descriptors offered to the model *)

Record descriptor : Type := {
  d_name : string;
  d_description : string;
  d_properties : list string;
  d_required : list string;
  d_additionalProperties : bool
}.

Definition RECORD_USER_DETAILS_JSON : descriptor := {|
  d_name := "record_user_details";
  d_description := "Use this tool to record that a user is interested in being in touch and provided an email address";
  d_properties := ["email"; "name"; "notes"];
  d_required := ["email"];
  d_additionalProperties := false
|}.

Definition RECORD_UNKNOWN_QUESTION_JSON : descriptor := {|
  d_name := "record_unknown_question";
  d_description := "Always use this tool to record any question that couldn't be answered";
  d_properties := ["question"];
  d_required := ["question"];
  d_additionalProperties := false
|}.

Definition OPENAI_TOOLS : list descriptor :=
  [RECORD_USER_DETAILS_JSON; RECORD_UNKNOWN_QUESTION_JSON].

(** The key part of a descriptor's schema: required keys present, and no
    undeclared key when [additionalProperties] is [False]. *)
Definition schema_keys_ok (d : descriptor) (kwargs : list (string * json)) : bool :=
  forallb (fun p => in_strings p (map fst kwargs)) (d_required d)
  && (d_additionalProperties d
      || forallb (fun k => in_strings k (d_properties d)) (map fst kwargs)).

(** ** The module's global namespace, as [globals().get] sees it *)

(** Every name bound at module level when the file runs as a script: the
    imports, the constants, the three functions, the class, the instance [me]
    and the names Python itself binds.  A name that is absent and a name bound
    to something that cannot be called end the same way in
    [handle_tool_call]. *)

Inductive pyobj : Type :=
  | Fn (f : pyfunction)      (* a function defined in this module *)
  | OtherCallable            (* a class or a function imported from a package *)
  | NotCallable.             (* a module, a constant, a dict or a list *)

Definition module_globals : list (string * pyobj) :=
  [ ("annotations", NotCallable); ("json", NotCallable); ("os", NotCallable);
    ("requests", NotCallable); ("gr", NotCallable);
    ("PdfReader", OtherCallable); ("load_dotenv", OtherCallable);
    ("OpenAI", OtherCallable);
    ("Any", OtherCallable); ("Dict", OtherCallable); ("List", OtherCallable);
    ("TypedDict", OtherCallable); ("Union", OtherCallable);
    ("Optional", OtherCallable);
    ("PUSHOVER_ENDPOINT", NotCallable);
    ("push", Fn push);
    ("record_user_details", Fn record_user_details);
    ("record_unknown_question", Fn record_unknown_question);
    ("RECORD_USER_DETAILS_JSON", NotCallable);
    ("RECORD_UNKNOWN_QUESTION_JSON", NotCallable);
    ("OPENAI_TOOLS", NotCallable);
    ("Me", OtherCallable);
    ("me", NotCallable);
    ("__name__", NotCallable); ("__doc__", NotCallable);
    ("__package__", NotCallable); ("__loader__", NotCallable);
    ("__spec__", NotCallable); ("__annotations__", NotCallable);
    ("__builtins__", NotCallable); ("__file__", NotCallable);
    ("__cached__", NotCallable) ].

Fixpoint assoc {A} (k : string) (l : list (string * A)) : option A :=
  match l with
  | [] => None
  | (k', v) :: rest => if String.eqb k k' then Some v else assoc k rest
  end.

Definition globals_get (tool_name : string) : option pyobj :=
  assoc tool_name module_globals.

Definition callable (tool : option pyobj) : bool :=
  match tool with
  | Some (Fn _) | Some OtherCallable => true
  | Some NotCallable | None => false
  end.

(** ** Messages and model responses *)

Record Function : Type := {
  name : string;
  arguments : json_text
}.

Record ToolCall : Type := {
  id : string;
  function : Function
}.

(** A message dict: the keys [role] and [content], and [tool_calls] or
    [tool_call_id] where the dict has them. *)
Record message : Type := {
  role : string;
  content : string;
  tool_calls : option (list ToolCall);
  tool_call_id : option string
}.

(** [response.choices[0]]: its [finish_reason] and the fields of its
    [message]. *)
Record choice : Type := {
  finish_reason : string;
  message_content : option string;
  message_tool_calls : option (list ToolCall)
}.


(** ** The persona *)

Record Me : Type := {
  me_name : string;       (* self.name *)
  me_linkedin : string;   (* self.linkedin: text of the PDF export, or empty *)
  me_summary : string     (* self.summary: text of the summary file, or empty *)
}.

(** Truthiness of a [str]: non-empty. *)
Definition truthy (s : string) : bool :=
  negb (String.eqb s EmptyString).

Definition system_prompt (self : Me) : string :=
  let intro :=
    "You are acting as " +:+ me_name self +:+ ". Answer questions about "
    +:+ me_name self +:+ "'s career, background, skills and experience. "
    +:+ "Represent the persona faithfully and professionally. If you do not know an answer, call record_unknown_question. "
    +:+ "Encourage the user to share their email and record via record_user_details." in
  let summary_block :=
    if truthy (me_summary self)
    then nl +:+ nl +:+ "## Summary" +:+ nl +:+ me_summary self else EmptyString in
  let linkedin_block :=
    if truthy (me_linkedin self)
    then nl +:+ nl +:+ "## LinkedIn Profile" +:+ nl +:+ me_linkedin self else EmptyString in
  let closing :=
    nl +:+ nl +:+ "Stay strictly in character as " +:+ me_name self +:+ "." in
  intro +:+ summary_block +:+ linkedin_block +:+ closing.

(** ** The store: list objects, and the requests sent to the model *)

(** Python lists are objects with identity.  The heap maps the address of a
    list object to its current elements; message dicts are never assigned to
    after they are built, so they are values.  [calls] records, oldest first,
    the [messages] argument of every [chat.completions.create] call. *)
Definition loc : Type := positive.

Record world : Type := {
  heap : gmap loc (list message);
  calls : list (list message)
}.

(** A computation that reads and writes the store and may raise; the store
    survives an exception, as in Python. *)
Definition M (A : Type) : Type := world -> result A * world.

#[export] Instance M_ret : MRet M := fun A a w => (Ok a, w).

#[export] Instance M_bind : MBind M := fun A B k m w =>
  match m w with
  | (Ok a, w') => k a w'
  | (Raise e, w') => (Raise e, w')
  end.

Definition lift {A} (r : result A) : M A := fun w => (r, w).

(** The elements of the list object at [l]. *)
Definition deref (w : world) (l : loc) : list message :=
  w.(heap) !!! l.

(** A list display or a [+] expression: a new list object. *)
Definition new_list (items : list message) : M loc :=
  fun w =>
    let l := fresh (dom w.(heap)) in
    (Ok l, {| heap := <[l := items]> w.(heap); calls := w.(calls) |}).

(** [l.append(m)]: the object at [l] is updated in place. *)
Definition append (l : loc) (m : message) : M unit :=
  fun w =>
    (Ok tt, {| heap := <[l := deref w l ++ [m]]> w.(heap); calls := w.(calls) |}).

(** [l.extend(ms)]. *)
Definition extend (l : loc) (ms : list message) : M unit :=
  fun w =>
    (Ok tt, {| heap := <[l := deref w l ++ ms]> w.(heap); calls := w.(calls) |}).

Definition apology : string :=
  "I'm sorry, I'm unable to complete that request right now. Please try again.".

Section Chat.

(** What [json.dumps] makes of the keyword call of a callable that is not
    defined in this module, by the name it was looked up under. *)
Variable other_call : string -> json -> result string.

(** The remote model: its answer to the [n]-th request since the store's
    [calls] was empty, given the messages sent.  [Raise] is a failed call. *)
Variable create : nat -> list message -> result choice.

(** One iteration of the [for tool_call in tool_calls] body: the message
    appended to [results]. *)
Definition dispatch (tool_call : ToolCall) : result message :=
  let tool_name := tool_call.(function).(name) in
  result_bind (json_loads tool_call.(function).(arguments)) (fun arguments =>
  let tool := globals_get tool_name in
  let content :=
    if callable tool then
      match tool with
      | Some (Fn f) => result_bind (call f arguments) (fun resp => Ok (json_dumps resp))
      | _ => other_call tool_name arguments
      end
    else Ok (json_dumps (PyDict [])) in
  result_bind content (fun content =>
  Ok {| role := "tool"; content := content;
        tool_calls := None; tool_call_id := Some tool_call.(id) |})).

Fixpoint handle_tool_call_from (results : list message) (tool_calls : list ToolCall)
  : result (list message) :=
  match tool_calls with
  | [] => Ok results
  | tool_call :: rest =>
      result_bind (dispatch tool_call) (fun m =>
      handle_tool_call_from (results ++ [m]) rest)
  end.

(** [Me.handle_tool_call]; iterating over [None] is a [TypeError]. *)
Definition handle_tool_call (tool_calls : option (list ToolCall)) : result (list message) :=
  match tool_calls with
  | None => Raise TypeError
  | Some tcs => handle_tool_call_from [] tcs
  end.

(** [self.openai.chat.completions.create(messages=messages, ...)]. *)
Definition completions_create (messages : loc) : M choice :=
  fun w =>
    let sent := deref w messages in
    (create (length w.(calls)) sent,
     {| heap := w.(heap); calls := w.(calls) ++ [sent] |}).

Definition assistant_message (c : choice) : message :=
  {| role := "assistant";
     content := or_else c.(message_content) EmptyString;
     tool_calls := Some (or_else c.(message_tool_calls) []);
     tool_call_id := None |}.

(** The [for _ in range(n)] loop of [chat] and the [return] after it. *)
Fixpoint chat_loop (n : nat) (messages : loc) : M string :=
  match n with
  | 0 => mret apology
  | S n' =>
      c ← completions_create messages;
      if String.eqb c.(finish_reason) "tool_calls" then
        results ← lift (handle_tool_call c.(message_tool_calls));
        append messages (assistant_message c);;
        extend messages results;;
        chat_loop n' messages
      else mret (or_else c.(message_content) EmptyString)
  end.

Definition system_message (self : Me) : message :=
  {| role := "system"; content := system_prompt self;
     tool_calls := None; tool_call_id := None |}.

Definition user_message (text : string) : message :=
  {| role := "user"; content := text; tool_calls := None; tool_call_id := None |}.

(** [Me.chat(message, history)], [history] being the address of the caller's
    list. *)
Definition chat (self : Me) (message : string) (history : loc) : M string :=
  fun w =>
    (messages ← new_list ([system_message self] ++ deref w history ++ [user_message message]);
     chat_loop 12 messages) w.

End Chat.

End App.

(** * 2_openai/deep_research *)
Module DeepResearch.

(** ** The agents *)

Record Agent : Type := {
  agent_name : string;
  instructions : string;
  model : string
}.

(** planner_agent.py *)
Definition HOW_MANY_SEARCHES : nat := 5.

Definition PLANNER_INSTRUCTIONS : string :=
  "You are a helpful research assistant. Given a query, come up with a set of web searches "
  +:+ "to perform to best answer the query. Output " +:+ pretty HOW_MANY_SEARCHES
  +:+ " terms to query for.".

Record WebSearchItem : Type := {
  reason : string;
  query : string
}.

Record WebSearchPlan : Type := {
  searches : list WebSearchItem
}.

Definition planner_agent : Agent := {|
  agent_name := "PlannerAgent";
  instructions := PLANNER_INSTRUCTIONS;
  model := "gpt-4o-mini"
|}.

(** search_agent.py *)
Definition SEARCH_INSTRUCTIONS : string :=
  "You are a research assistant. Given a search term, you search the web for that term and "
  +:+ "produce a concise summary of the results. The summary must 2-3 paragraphs and less than 300 "
  +:+ "words. Capture the main points. Write succinctly, no need to have complete sentences or good "
  +:+ "grammar. This will be consumed by someone synthesizing a report, so its vital you capture the "
  +:+ "essence and ignore any fluff. Do not include any additional commentary other than the summary itself.".

Definition search_agent : Agent := {|
  agent_name := "Search agent";
  instructions := SEARCH_INSTRUCTIONS;
  model := "gpt-4o-mini"
|}.

(** writer_agent.py *)
Definition WRITER_INSTRUCTIONS : string :=
  "You are a senior researcher tasked with writing a cohesive report for a research query. "
  +:+ "You will be provided with the original query, and some initial research done by a research assistant."
  +:+ nl
  +:+ "You should first come up with an outline for the report that describes the structure and "
  +:+ "flow of the report. Then, generate the report and return that as your final output."
  +:+ nl
  +:+ "The final output should be in markdown format, and it should be lengthy and detailed. Aim "
  +:+ "for 5-10 pages of content, at least 1000 words.".

Record ReportData : Type := {
  short_summary : string;
  markdown_report : string;
  follow_up_questions : list string
}.

Definition writer_agent : Agent := {|
  agent_name := "WriterAgent";
  instructions := WRITER_INSTRUCTIONS;
  model := "gpt-4o-mini"
|}.

(** email_agent.py *)
Definition EMAIL_INSTRUCTIONS : string :=
  "You are able to send a nicely formatted HTML email based on a detailed report."
  +:+ nl
  +:+ "You will be provided with a detailed report. You should use your tool to send one email, providing the "
  +:+ nl
  +:+ "report converted into clean, well presented HTML with an appropriate subject line.".

Definition email_agent : Agent := {|
  agent_name := "Email agent";
  instructions := EMAIL_INSTRUCTIONS;
  model := "gpt-4o-mini"
|}.

(** ** Async generators: the events yielded so far, and how the body ended *)

Definition G (A : Type) : Type := list string * result A.

#[export] Instance G_ret : MRet G := fun A a => ([], Ok a).

#[export] Instance G_bind : MBind G := fun A B k m =>
  match m with
  | (events, Ok a) => let '(events', r) := k a in (events ++ events', r)
  | (events, Raise e) => (events, Raise e)
  end.

Definition yield (event : string) : G unit := ([event], Ok tt).

(** [await] of a coroutine that yields nothing itself. *)
Definition await {A} (r : result A) : G A := ([], r).

(** ** research_manager.py *)

(** The [input] f-string of [search]. *)
Definition search_input (item : WebSearchItem) : string :=
  "Search term: " +:+ item.(query) +:+ nl +:+ "Reason for searching: " +:+ item.(reason).

Section ResearchManager.

(** [Runner.run(agent, input)] and the structured [final_output] it ends
    with, per output type.  A search task is identified by its position in the
    task list, so that two tasks with the same input may end differently. *)
Variable Runner_run_plan : Agent -> string -> result WebSearchPlan.
Variable Runner_run_search : nat -> Agent -> string -> result string.
Variable Runner_run_report : Agent -> string -> result ReportData.
Variable Runner_run_email : Agent -> string -> result unit.

(** [gen_trace_id()]. *)
Variable gen_trace_id : string.

(** Python's rendering of a list of [str] inside an f-string. *)
Variable str_of_list : list string -> string.

(** The order in which [asyncio.as_completed] hands back the tasks. *)
Variable as_completed :
  list (result (option string)) -> list (result (option string)).

Definition plan_searches (query : string) : result WebSearchPlan :=
  result_bind (Runner_run_plan planner_agent ("Query: " +:+ query)) (fun final_output =>
  Ok final_output).

(** [search(item)], run as the task at position [i]: [except Exception]
    turns a failure into [None]; what is not an [Exception] escapes. *)
Definition search (i : nat) (item : WebSearchItem) : result (option string) :=
  let input := search_input item in
  match Runner_run_search i search_agent input with
  | Ok final_output => Ok (Some final_output)
  | Raise e => if is_Exception e then Ok None else Raise e
  end.

(** The [for task in asyncio.as_completed(tasks)] loop: [await task] gives the
    task's result or re-raises what it raised. *)
Fixpoint collect (results : list string) (completed : list (result (option string)))
  : result (list string) :=
  match completed with
  | [] => Ok results
  | task :: rest =>
      result_bind task (fun result =>
      collect (match result with
               | Some summary => results ++ [summary]
               | None => results
               end) rest)
  end.

Definition perform_searches (search_plan : WebSearchPlan) : result (list string) :=
  let tasks := imap search search_plan.(searches) in
  collect [] (as_completed tasks).

Definition write_report (query : string) (search_results : list string) : result ReportData :=
  let input :=
    "Original query: " +:+ query +:+ nl +:+ "Summarized search results: "
    +:+ str_of_list search_results in
  result_bind (Runner_run_report writer_agent input) (fun final_output =>
  Ok final_output).

Definition send_email (report : ReportData) : result unit :=
  result_bind (Runner_run_email email_agent report.(markdown_report)) (fun _ =>
  Ok tt).

Definition run (query : string) : G unit :=
  let trace_id := gen_trace_id in
  yield ("View trace: https://platform.openai.com/traces/trace?trace_id=" +:+ trace_id);;
  search_plan ← await (plan_searches query);
  yield "Searches planned, starting to search...";;
  search_results ← await (perform_searches search_plan);
  yield "Searches complete, writing report...";;
  report ← await (write_report query search_results);
  yield "Report written, sending email...";;
  await (send_email report);;
  yield "Email sent, research complete";;
  yield report.(markdown_report).

End ResearchManager.

End DeepResearch.

(** * Predicates used to state the properties *)
Module Props.
Import App.

(** The list [chat] builds before its loop. *)
Definition initial_messages (self : Me) (text : string) (history : list message)
  : list message :=
  [system_message self] ++ history ++ [user_message text].

(** The store right after a request was sent from the list at [m]. *)
Definition sent_world (w : world) (m : loc) : world :=
  {| heap := w.(heap); calls := w.(calls) ++ [deref w m] |}.

(** The store after the assistant message of [c] and [results] were appended
    to the list at [m]. *)
Definition next_world (w : world) (m : loc) (c : choice) (results : list message)
  : world :=
  {| heap := <[m := (deref w m ++ [assistant_message c]) ++ results]> w.(heap);
     calls := w.(calls) ++ [deref w m] |}.

(** The address of the list [chat] builds: the one [new_list] picks. *)
Definition messages_loc (w : world) : loc :=
  fresh (dom w.(heap)).

(** The store at the entry of the loop of [chat]. *)
Definition entry_world (self : Me) (text : string) (history : loc) (w : world)
  : world :=
  {| heap := <[messages_loc w := initial_messages self text (deref w history)]> w.(heap);
     calls := w.(calls) |}.

Definition tool_message (text : string) (call_id : string) : message :=
  {| role := "tool"; content := text; tool_calls := None; tool_call_id := Some call_id |}.

(** [result] answers [tool_call]: a tool-result carrying its identifier. *)
Definition answers (tool_call : ToolCall) (result : message) : Prop :=
  result.(role) = "tool" /\ result.(tool_call_id) = Some tool_call.(id).

(** A run of tool rounds: an assistant message carrying the invocations it
    requests, followed by one tool-result per invocation, position by
    position, and then the next round. *)
Inductive tool_rounds : list message -> Prop :=
  | rounds_done : tool_rounds []
  | rounds_step (c : choice) (requested : list ToolCall) (results rest : list message) :
      (assistant_message c).(tool_calls) = Some requested ->
      Forall2 answers requested results ->
      tool_rounds rest ->
      tool_rounds (assistant_message c :: results ++ rest).

(** The model asks for exactly the invocations [tcs]. *)
Definition requests (tcs : list ToolCall) : choice :=
  {| finish_reason := "tool_calls"; message_content := None;
     message_tool_calls := Some tcs |}.

(** [tool_call] names an offered tool and its argument keys violate the
    schema of that tool's descriptor. *)
Definition violates_schema (tool_call : ToolCall) : Prop :=
  exists d kwargs,
    In d OPENAI_TOOLS /\
    tool_call.(function).(name) = d.(d_name) /\
    tool_call.(function).(arguments) = Document (JObject kwargs) /\
    schema_keys_ok d kwargs = false.

(** [tool_call] names nothing callable in the module and its arguments are
    JSON. *)
Definition unknown_tool (tool_call : ToolCall) : Prop :=
  callable (globals_get tool_call.(function).(name)) = false /\
  exists v, tool_call.(function).(arguments) = Document v.

End Props.

(** * Concrete inputs *)
Module Examples.
Import App Props.

Definition ed : Me :=
  {| me_name := "Ed Donner"; me_linkedin := EmptyString; me_summary := "Engineer." |}.

Definition greeting : message :=
  {| role := "user"; content := "hello"; tool_calls := None; tool_call_id := None |}.

(** A store holding the caller's history list at address 1. *)
Definition w0 : world :=
  {| heap := {[ 1%positive := [greeting] ]}; calls := [] |}.

Definition no_imports : string -> json -> result string :=
  fun _ _ => Raise TypeError.

Definition tool_call_of (call_id tool_name : string) (kwargs : list (string * json))
  : ToolCall :=
  {| id := call_id;
     function := {| name := tool_name; arguments := Document (JObject kwargs) |} |}.

(** [record_user_details] without its required [email]. *)
Definition details_without_email : ToolCall :=
  tool_call_of "call_1" "record_user_details" [("name", JString "Ann")].

(** [record_unknown_question] with an undeclared key and no [question]. *)
Definition question_misnamed : ToolCall :=
  tool_call_of "call_2" "record_unknown_question" [("query", JString "why?")].

(** A tool name bound to nothing. *)
Definition lookup_weather : ToolCall :=
  tool_call_of "call_3" "lookup_weather" [("city", JString "Oslo")].

Definition good_question : ToolCall :=
  tool_call_of "call_4" "record_unknown_question" [("question", JString "why?")].

(** Adapters: one answer whatever is sent. *)
Definition always (c : choice) : nat -> list message -> result choice :=
  fun _ _ => Ok c.

Definition final_answer (text : string) : choice :=
  {| finish_reason := "stop"; message_content := Some text;
     message_tool_calls := None |}.

End Examples.

(** * Predicates and concrete inputs for the research pipeline *)
Module ResearchProps.
Import DeepResearch.

(** The summary a finished task contributes, if any. *)
Definition summary_of (task : result (option string)) : option string :=
  match task with
  | Ok (Some summary) => Some summary
  | _ => None
  end.

Definition summaries (tasks : list (result (option string))) : list string :=
  omap summary_of tasks.

(** The task returned, with a summary or with [None]. *)
Definition returned (task : result (option string)) : Prop :=
  exists r, task = Ok r.

(** The first line [run] yields. *)
Definition trace_line (trace_id : string) : string :=
  "View trace: https://platform.openai.com/traces/trace?trace_id=" +:+ trace_id.

(** The status lines of the four stages, in stage order. *)
Definition stage_lines : list string :=
  [ "Searches planned, starting to search...";
    "Searches complete, writing report...";
    "Report written, sending email...";
    "Email sent, research complete" ].

Definition item_of (q : string) : WebSearchItem :=
  {| reason := "background"; query := q |}.

Definition three_items : WebSearchPlan :=
  {| searches := [item_of "history"; item_of "market"; item_of "risks"] |}.

Definition plans_three : Agent -> string -> result WebSearchPlan :=
  fun _ _ => Ok three_items.

(** Search units: every one fails, or only the one at position [k]. *)
Definition all_time_out : nat -> Agent -> string -> result string :=
  fun _ _ _ => Raise (RemoteError "timeout").

Definition times_out_at (k : nat) : nat -> Agent -> string -> result string :=
  fun i _ input => if Nat.eqb i k then Raise (RemoteError "timeout") else Ok input.

Definition a_report : ReportData :=
  {| short_summary := "Short."; markdown_report := "# Report";
     follow_up_questions := ["What next?"] |}.

Definition writes_report : Agent -> string -> result ReportData :=
  fun _ _ => Ok a_report.

Definition sends : Agent -> string -> result unit :=
  fun _ _ => Ok tt.

(** A stand-in for Python's rendering of a list. *)
Definition comma_separated : list string -> string := join ", ".

(** A completion order: the last task started finishes first. *)
Definition last_first (tasks : list (result (option string)))
  : list (result (option string)) :=
  rev tasks.

End ResearchProps.

(** * 1_foundations/app.py: the notifications the tools send *)

(** [App.body] gives what a tool returns; here the same functions are
    modelled with their effect, the request [push] posts to Pushover.  The
    state is the list of requests posted so far, oldest first. *)
Module AppIO.

Definition PUSHOVER_ENDPOINT : string := "https://api.pushover.net/1/messages.json".

(** The keyword arguments of one [requests.post] call.  [message] holds the
    object bound to [text]: a [str] or a value decoded from JSON. *)
Record post : Type := {
  url : string;
  timeout : nat;
  token : string;
  user : string;
  message : App.json
}.

(** How a [requests.post] call ends. *)
Inductive post_outcome : Type :=
  | Responded
  | RaisesRequestException
  | RaisesOther (e : exn).

Definition IO (A : Type) : Type := list post -> result A * list post.

#[export] Instance IO_ret : MRet IO := fun A a log => (Ok a, log).

#[export] Instance IO_bind : MBind IO := fun A B k m log =>
  match m log with
  | (Ok a, log') => k a log'
  | (Raise e, log') => (Raise e, log')
  end.

Definition lift {A} (r : result A) : IO A := fun log => (r, log).

(** [not x] for the value of [os.getenv]: [None] and the empty string are
    falsy. *)
Definition falsy (x : option string) : bool :=
  match x with
  | None => true
  | Some s => negb (App.truthy s)
  end.

(** [arguments[k]] after [json.loads]: of members with the same key the last
    one stays in the dict. *)
Definition kwarg (k : string) (kwargs : list (string * App.json)) : option App.json :=
  App.assoc k (rev kwargs).

Section Tools.

(** [os.getenv]. *)
Variable getenv : string -> option string.

(** [requests.post], by the number of requests posted before it. *)
Variable requests_post : nat -> post -> post_outcome.

(** [str(v)] for a decoded JSON value that is not a [str]. *)
Variable py_str : App.json -> string.

(** [{v}] inside an f-string. *)
Definition format_value (v : App.json) : string :=
  match v with
  | App.JString s => s
  | _ => py_str v
  end.

Definition push (text : App.json) : IO unit :=
  fun log =>
    let token := getenv "PUSHOVER_TOKEN" in
    let user := getenv "PUSHOVER_USER" in
    if falsy token || falsy user then (Ok tt, log)
    else
      let request :=
        {| url := PUSHOVER_ENDPOINT; timeout := 5;
           token := or_else token EmptyString; user := or_else user EmptyString;
           message := text |} in
      match requests_post (length log) request with
      | Responded => (Ok tt, log ++ [request])
      | RaisesRequestException => (Ok tt, log ++ [request])
      | RaisesOther e => (Raise e, log ++ [request])
      end.

Definition record_user_details (email name notes : App.json) : IO App.pyvalue :=
  push (App.JString ("Recording " +:+ format_value name +:+ " with email "
                     +:+ format_value email +:+ " and notes " +:+ format_value notes));;
  mret (App.PyDict [("recorded", "ok")]).

Definition record_unknown_question (question : App.json) : IO App.pyvalue :=
  push (App.JString ("Recording " +:+ format_value question));;
  mret (App.PyDict [("recorded", "ok")]).

(** The body of [f] run on keyword arguments that bind, parameters left out
    taking their defaults. *)
Definition run (f : App.pyfunction) (kwargs : list (string * App.json)) : IO App.pyvalue :=
  match f with
  | App.push =>
      push (or_else (kwarg "text" kwargs) App.JNull);;
      mret App.PyNone
  | App.record_user_details =>
      record_user_details
        (or_else (kwarg "email" kwargs) App.JNull)
        (or_else (kwarg "name" kwargs) (App.JString "Name not provided"))
        (or_else (kwarg "notes" kwargs) (App.JString "not provided"))
  | App.record_unknown_question =>
      record_unknown_question (or_else (kwarg "question" kwargs) App.JNull)
  end.

Definition call (f : App.pyfunction) (arguments : App.json) : IO App.pyvalue :=
  match arguments with
  | App.JObject kwargs => if App.binds f kwargs then run f kwargs else lift (Raise TypeError)
  | _ => lift (Raise TypeError)
  end.

Variable other_call : string -> App.json -> result string.

(** One iteration of the loop of [handle_tool_call], with its effect. *)
Definition dispatch (tool_call : App.ToolCall) : IO App.message :=
  let tool_name := tool_call.(App.function).(App.name) in
  arguments ← lift (App.json_loads tool_call.(App.function).(App.arguments));
  let tool := App.globals_get tool_name in
  content ←
    (if App.callable tool then
       match tool with
       | Some (App.Fn f) => resp ← call f arguments; mret (App.json_dumps resp)
       | _ => lift (other_call tool_name arguments)
       end
     else mret (App.json_dumps (App.PyDict [])));
  mret {| App.role := "tool"; App.content := content;
          App.tool_calls := None; App.tool_call_id := Some tool_call.(App.id) |}.

Fixpoint handle_tool_call_from (results : list App.message) (tool_calls : list App.ToolCall)
  : IO (list App.message) :=
  match tool_calls with
  | [] => mret results
  | tool_call :: rest =>
      m ← dispatch tool_call;
      handle_tool_call_from (results ++ [m]) rest
  end.

Definition handle_tool_call (tool_calls : option (list App.ToolCall))
  : IO (list App.message) :=
  match tool_calls with
  | None => lift (Raise TypeError)
  | Some tcs => handle_tool_call_from [] tcs
  end.

End Tools.

End AppIO.

(** * 1_foundations/app.py: loading the persona *)
Module Loader.

(** How [open(path).read()] ends. *)
Inductive read_outcome : Type :=
  | FileText (text : string)
  | RaisesOSError
  | ReadRaises (e : exn).

(** How [page.extract_text()] ends. *)
Inductive page : Type :=
  | Extracted (text : option string)
  | ExtractRaises (e : exn).

(** How [PdfReader(path)] and its [pages] end. *)
Inductive pdf : Type :=
  | Pages (pages : list page)
  | ReaderRaises (e : exn).

Section Files.

Variable read_file : string -> read_outcome.
Variable path_exists : string -> bool.
Variable PdfReader : string -> pdf.

(** [OpenAI()]: the client is built, or the constructor raises. *)
Variable OpenAI : result unit.

Definition _read_text_file (path : string) : result string :=
  match read_file path with
  | FileText text => Ok text
  | RaisesOSError => Ok EmptyString
  | ReadRaises e => Raise e
  end.

(** The [for page in reader.pages] loop. *)
Fixpoint extract_pages (out : list string) (pages : list page) : result (list string) :=
  match pages with
  | [] => Ok out
  | Extracted t :: rest =>
      let text := or_else t EmptyString in
      extract_pages (if App.truthy text then out ++ [text] else out) rest
  | ExtractRaises e :: _ => Raise e
  end.

Definition _load_linkedin_pdf (path : string) : result string :=
  if negb (path_exists path) then Ok EmptyString
  else
    let tried :=
      match PdfReader path with
      | Pages pages => extract_pages [] pages
      | ReaderRaises e => Raise e
      end in
    match tried with
    | Ok out => Ok (join nl out)
    | Raise e => if is_Exception e then Ok EmptyString else Raise e
    end.

(** [Me.__init__]. *)
Definition init : result App.Me :=
  result_bind OpenAI (fun _ =>
  let name := "Ed Donner" in
  result_bind (_load_linkedin_pdf "me/linkedin.pdf") (fun linkedin =>
  result_bind (_read_text_file "me/summary.txt") (fun summary =>
  Ok {| App.me_name := name; App.me_linkedin := linkedin; App.me_summary := summary |}))).

End Files.

End Loader.

(** * 2_openai/deep_research/deep_research.py *)
Module DeepResearchUI.
Import DeepResearch.

(** [async for chunk in inner: yield chunk]: every chunk is yielded again,
    and what ends [inner] ends the loop. *)
Fixpoint relay (chunks : list string) (ending : result unit) : G unit :=
  match chunks with
  | [] => await ending
  | chunk :: rest => yield chunk;; relay rest ending
  end.

(** The module's [run(query)], given the generator of
    [ResearchManager().run(query)]. *)
Definition run (manager_run : G unit) : G unit :=
  relay (fst manager_run) (snd manager_run).

End DeepResearchUI.

(** * Further predicates and concrete inputs *)
Module MoreProps.
Import App Props.

(** Whether the answer [r] to a request ends the loop of [chat], and with
    what: a failed model call, a final answer, or a tool request whose tools
    raise.  [None]: the tools ran and the loop goes on. *)
Definition stops (other_call : string -> json -> result string) (r : result choice)
  : option (result string) :=
  match r with
  | Raise e => Some (Raise e)
  | Ok c =>
      if String.eqb c.(finish_reason) "tool_calls" then
        match handle_tool_call other_call c.(message_tool_calls) with
        | Raise e => Some (Raise e)
        | Ok _ => None
        end
      else Some (Ok (or_else c.(message_content) EmptyString))
  end.

(** The content of the tool-result of an offered tool. *)
Definition recorded_ok : string :=
  json_dumps (PyDict [("recorded", "ok")]).

(** A model that asks for a weather lookup twice and then answers. *)
Definition two_rounds_then_answer : nat -> list message -> result choice :=
  fun i _ =>
    if Nat.ltb i 2 then Ok (requests [Examples.lookup_weather])
    else Ok (Examples.final_answer "Sunny.").

(** A model whose third call fails. *)
Definition third_call_fails : nat -> list message -> result choice :=
  fun i _ =>
    if Nat.ltb i 2 then Ok (requests [Examples.lookup_weather])
    else Raise (RemoteError "rate limit").

(** A model that answers without content after one tool round. *)
Definition silent_after_one_round : nat -> list message -> result choice :=
  fun i _ =>
    if Nat.ltb i 1 then Ok (requests [Examples.good_question])
    else Ok {| finish_reason := "length"; message_content := None;
               message_tool_calls := None |}.

Definition unparsable_call : ToolCall :=
  {| id := "call_5";
     function := {| name := "lookup_weather"; arguments := Malformed "{city:" |} |}.

Definition email_only : ToolCall :=
  Examples.tool_call_of "call_6" "record_user_details"
    [("email", JString "ann@example.org")].

(** [record_user_details] with an [email] that is a number, not a string. *)
Definition numeric_email : ToolCall :=
  Examples.tool_call_of "call_8" "record_user_details" [("email", JNumber "42")].

Definition push_call (text : json) : ToolCall :=
  Examples.tool_call_of "call_7" "push" [("text", text)].

(** Environments of [os.getenv]: both credentials set, and none. *)
Definition with_credentials : string -> option string :=
  fun k =>
    if String.eqb k "PUSHOVER_TOKEN" then Some "tok"
    else if String.eqb k "PUSHOVER_USER" then Some "usr"
    else None.

Definition without_credentials : string -> option string :=
  fun _ => None.

(** The condition under which [push] returns at once. *)
Definition credentials_missing (getenv : string -> option string) : bool :=
  AppIO.falsy (getenv "PUSHOVER_TOKEN") || AppIO.falsy (getenv "PUSHOVER_USER").

Definition always_responds : nat -> AppIO.post -> AppIO.post_outcome :=
  fun _ _ => AppIO.Responded.

Definition network_down : nat -> AppIO.post -> AppIO.post_outcome :=
  fun _ _ => AppIO.RaisesRequestException.

Definition no_str : json -> string :=
  fun _ => "?".

(** The request [push] posts for [text] under [with_credentials]. *)
Definition posted (text : json) : AppIO.post :=
  {| AppIO.url := AppIO.PUSHOVER_ENDPOINT; AppIO.timeout := 5;
     AppIO.token := "tok"; AppIO.user := "usr"; AppIO.message := text |}.

(** Files: nothing on disk; and a three-page export whose second page has no
    text. *)
Definition no_file : string -> Loader.read_outcome :=
  fun _ => Loader.RaisesOSError.

Definition three_pages : list Loader.page :=
  [ Loader.Extracted (Some "Page one"); Loader.Extracted None;
    Loader.Extracted (Some "Page three") ].

Definition torn_export : list Loader.page :=
  [ Loader.Extracted (Some "Page one");
    Loader.ExtractRaises (RemoteError "bad xref") ].

(** The texts that [_load_linkedin_pdf] keeps: those of the pages whose
    extracted text is not empty. *)
Definition kept_texts (texts : list (option string)) : list string :=
  List.filter App.truthy (map (fun t => or_else t EmptyString) texts).

(** The system prompt of a persona with no summary and no profile. *)
Definition bare_prompt (name : string) : string :=
  "You are acting as " +:+ name +:+ ". Answer questions about "
  +:+ name +:+ "'s career, background, skills and experience. "
  +:+ "Represent the persona faithfully and professionally. If you do not know an answer, call record_unknown_question. "
  +:+ "Encourage the user to share their email and record via record_user_details."
  +:+ nl +:+ nl +:+ "Stay strictly in character as " +:+ name +:+ ".".

End MoreProps.

(** * Further predicates for the research pipeline *)
Module MoreResearchProps.
Import DeepResearch ResearchProps.

(** The summaries of the search units that succeed, in the order of the
    plan; [i] is the position of the first item. *)
Fixpoint successes (Runner_run_search : nat -> Agent -> string -> result string)
    (i : nat) (items : list WebSearchItem) : list string :=
  match items with
  | [] => []
  | item :: rest =>
      match Runner_run_search i search_agent (search_input item) with
      | Ok out => out :: successes Runner_run_search (S i) rest
      | Raise _ => successes Runner_run_search (S i) rest
      end
  end.

(** What [run] has yielded when the stage after its [n]-th line failed. *)
Definition yielded_before_failure (trace_id : string) (n : nat) : list string :=
  take n (trace_line trace_id :: stage_lines).

Definition fails_to_plan : Agent -> string -> result WebSearchPlan :=
  fun _ _ => Raise (RemoteError "refused").

Definition cannot_send : Agent -> string -> result unit :=
  fun _ _ => Raise (RemoteError "smtp").

(** The first search unit is cancelled, the others succeed. *)
Definition first_cancelled : nat -> Agent -> string -> result string :=
  fun i _ input => if Nat.eqb i 0 then Raise CancelledError else Ok input.

Definition no_items : WebSearchPlan := {| searches := [] |}.

End MoreResearchProps.

(** * Properties of the persona chat loop *)
Module AppProofs.
Import App Props Examples.

Lemma dispatch_answers other_call tc m :
  dispatch other_call tc = Ok m -> answers tc m.
Proof.
  unfold dispatch, answers, result_bind.
  destruct (json_loads _) as [v|]; [|discriminate].
  destruct (if callable _ then _ else _) as [s|]; [|discriminate].
  intros [= <-]. split; reflexivity.
Qed.

Lemma handle_from_answers other_call tcs :
  forall acc results,
    handle_tool_call_from other_call acc tcs = Ok results ->
    exists new, results = acc ++ new /\ Forall2 answers tcs new.
Proof.
  induction tcs as [|tc rest IH]; intros acc results; simpl.
  - intros [= <-]. exists []. rewrite app_nil_r. split; constructor.
  - unfold result_bind at 1.
    destruct (dispatch other_call tc) as [m|] eqn:Hd; [|discriminate].
    intros H. destruct (IH _ _ H) as (new & -> & Hnew).
    exists (m :: new). rewrite <- app_assoc. split; [reflexivity|].
    constructor; [eapply dispatch_answers; eassumption | assumption].
Qed.

Lemma handle_answers other_call requested results :
  handle_tool_call other_call requested = Ok results ->
  exists tcs, requested = Some tcs /\ Forall2 answers tcs results.
Proof.
  destruct requested as [tcs|]; simpl; [|discriminate].
  intros H. destruct (handle_from_answers _ _ _ _ H) as (new & -> & Hnew).
  exists tcs. split; [reflexivity | assumption].
Qed.

Section Loop.

Variable other_call : string -> json -> result string.
Variable create : nat -> list message -> result choice.

(** One iteration of the loop, case by case. *)
Lemma chat_loop_S n m w :
  chat_loop other_call create (S n) m w =
  match create (length w.(calls)) (deref w m) with
  | Raise e => (Raise e, sent_world w m)
  | Ok c =>
      if String.eqb c.(finish_reason) "tool_calls" then
        match handle_tool_call other_call c.(message_tool_calls) with
        | Raise e => (Raise e, sent_world w m)
        | Ok results => chat_loop other_call create n m (next_world w m c results)
        end
      else (Ok (or_else c.(message_content) EmptyString), sent_world w m)
  end.
Proof.
  cbn [chat_loop]. unfold mbind, M_bind, completions_create, sent_world.
  destruct (create _ _) as [c|e]; [|reflexivity].
  destruct (String.eqb _ _); [|reflexivity].
  unfold lift. destruct (handle_tool_call _ _) as [results|e]; [|reflexivity].
  unfold append, extend, next_world, deref. cbn [heap calls].
  rewrite lookup_total_insert_eq, insert_insert_eq. reflexivity.
Qed.

Lemma chat_entry self text history w :
  chat other_call create self text history w =
  chat_loop other_call create 12 (messages_loc w) (entry_world self text history w).
Proof. reflexivity. Qed.

Lemma deref_entry self text history w :
  deref (entry_world self text history w) (messages_loc w)
  = initial_messages self text (deref w history).
Proof. unfold deref, entry_world. cbn [heap]. apply lookup_total_insert_eq. Qed.

Lemma deref_next w m c results :
  deref (next_world w m c results) m
  = (deref w m ++ [assistant_message c]) ++ results.
Proof. unfold deref at 1, next_world. cbn [heap]. apply lookup_total_insert_eq. Qed.

Lemma messages_loc_fresh w : w.(heap) !! messages_loc w = None.
Proof. unfold messages_loc. apply not_elem_of_dom, is_fresh. Qed.

(** Split the goal along the cases of one iteration. *)
Ltac iteration m w c e results Hc Hf Hh :=
  rewrite (chat_loop_S _ m w);
  destruct (create (length (calls w)) (deref w m)) as [c|e] eqn:Hc;
  [ destruct (String.eqb (finish_reason c) "tool_calls") eqn:Hf;
    [ destruct (handle_tool_call other_call (message_tool_calls c)) as [results|e] eqn:Hh | ]
  | ].

(** The loop sends at most [n] requests, after those already recorded. *)
Lemma loop_calls n :
  forall m w,
    exists new,
      (snd (chat_loop other_call create n m w)).(calls) = w.(calls) ++ new /\
      length new <= n.
Proof.
  induction n as [|n IH]; intros m w.
  - exists []. cbn. rewrite app_nil_r. split; [reflexivity | lia].
  - iteration m w c e results Hc Hf Hh.
    + destruct (IH m (next_world w m c results)) as (new & -> & Hlen).
      exists (deref w m :: new). cbn [next_world calls].
      rewrite <- app_assoc. cbn. split; [reflexivity | lia].
    + exists [deref w m]. cbn. split; [reflexivity | lia].
    + exists [deref w m]. cbn. split; [reflexivity | lia].
    + exists [deref w m]. cbn. split; [reflexivity | lia].
Qed.

(** The loop writes to no list object but the one at [m]. *)
Lemma loop_frame n :
  forall m w l,
    l <> m ->
    (snd (chat_loop other_call create n m w)).(heap) !! l = w.(heap) !! l.
Proof.
  induction n as [|n IH]; intros m w l Hl.
  - reflexivity.
  - iteration m w c e results Hc Hf Hh; try reflexivity.
    rewrite IH by assumption. cbn [next_world heap].
    apply lookup_insert_ne. congruence.
Qed.

(** What the loop appends to the list at [m] is a run of tool rounds. *)
Lemma loop_rounds n :
  forall m w,
    exists appended,
      deref (snd (chat_loop other_call create n m w)) m = deref w m ++ appended /\
      tool_rounds appended.
Proof.
  induction n as [|n IH]; intros m w.
  - exists []. cbn. rewrite app_nil_r. split; [reflexivity | constructor].
  - iteration m w c e results Hc Hf Hh;
      try (exists []; cbn; rewrite app_nil_r; split; [reflexivity | constructor]).
    destruct (IH m (next_world w m c results)) as (rest & -> & Hrest).
    destruct (handle_answers _ _ _ Hh) as (tcs & Htcs & Hans).
    exists (assistant_message c :: results ++ rest). split.
    + rewrite deref_next, <- !app_assoc. reflexivity.
    + econstructor; [|exact Hans|exact Hrest].
      cbn. rewrite Htcs. reflexivity.
Qed.

(** If the last of [S n] permitted requests was sent and answered by a tool
    request whose tools ran, the loop ends with the apology. *)
Lemma loop_cap n :
  forall m w req c results,
    (snd (chat_loop other_call create (S n) m w)).(calls) !! (length w.(calls) + n) = Some req ->
    create (length w.(calls) + n) req = Ok c ->
    String.eqb c.(finish_reason) "tool_calls" = true ->
    handle_tool_call other_call c.(message_tool_calls) = Ok results ->
    fst (chat_loop other_call create (S n) m w) = Ok apology.
Proof.
  induction n as [|n IH]; intros m w req c results Hreq Hc Hf Hh.
  - revert Hreq. iteration m w c0 e results0 Hc0 Hf0 Hh0.
    + reflexivity.
    + cbn [snd sent_world calls]. rewrite Nat.add_0_r in *.
      rewrite list_lookup_middle by reflexivity. intros [= <-]. congruence.
    + cbn [snd sent_world calls]. rewrite Nat.add_0_r in *.
      rewrite list_lookup_middle by reflexivity. intros [= <-]. congruence.
    + cbn [snd sent_world calls]. rewrite Nat.add_0_r in *.
      rewrite list_lookup_middle by reflexivity. intros [= <-]. congruence.
  - revert Hreq. iteration m w c0 e results0 Hc0 Hf0 Hh0.
    + intros Hreq. apply (IH m (next_world w m c0 results0) req c results);
        cbn [next_world calls]; rewrite ?length_app; cbn [length];
        replace (length (calls w) + 1 + n) with (length (calls w) + S n) by lia;
        assumption.
    + cbn [snd sent_world calls]. intros Hreq.
      apply lookup_lt_Some in Hreq. rewrite length_app in Hreq. cbn in Hreq. lia.
    + cbn [snd sent_world calls]. intros Hreq.
      apply lookup_lt_Some in Hreq. rewrite length_app in Hreq. cbn in Hreq. lia.
    + cbn [snd sent_world calls]. intros Hreq.
      apply lookup_lt_Some in Hreq. rewrite length_app in Hreq. cbn in Hreq. lia.
Qed.

(** The first request of a loop with at least one iteration is the list at
    [m] as it stands. *)
Lemma loop_first_request n m w :
  (snd (chat_loop other_call create (S n) m w)).(calls) !! length w.(calls)
  = Some (deref w m).
Proof.
  iteration m w c e results Hc Hf Hh;
    try (cbn [snd sent_world calls]; apply list_lookup_middle; reflexivity).
  destruct (loop_calls n m (next_world w m c results)) as (new & -> & _).
  cbn [next_world calls]. rewrite <- app_assoc.
  apply list_lookup_middle. reflexivity.
Qed.

(** A model that asks for the same tools whatever it is sent, tools that run:
    the loop uses all its iterations and ends with the apology. *)
Lemma loop_exhausts c results :
  (forall i sent, create i sent = Ok c) ->
  String.eqb c.(finish_reason) "tool_calls" = true ->
  handle_tool_call other_call c.(message_tool_calls) = Ok results ->
  forall n m w,
    fst (chat_loop other_call create n m w) = Ok apology /\
    length (snd (chat_loop other_call create n m w)).(calls) = length w.(calls) + n.
Proof.
  intros Hc Hf Hh. induction n as [|n IH]; intros m w.
  - cbn. split; [reflexivity | lia].
  - rewrite chat_loop_S, Hc, Hf, Hh.
    destruct (IH m (next_world w m c results)) as [-> ->].
    cbn [next_world calls]. rewrite length_app. cbn. split; [reflexivity | lia].
Qed.

End Loop.

(** ** Dispatch of one tool call *)

Lemma handle_from_app other_call l1 :
  forall acc l2,
    handle_tool_call_from other_call acc (l1 ++ l2) =
    result_bind (handle_tool_call_from other_call acc l1) (fun results =>
    handle_tool_call_from other_call results l2).
Proof.
  induction l1 as [|tc l1 IH]; intros acc l2; cbn.
  - reflexivity.
  - destruct (dispatch other_call tc) as [m|e]; cbn; [apply IH | reflexivity].
Qed.

Lemma handle_from_ok other_call tcs :
  Forall (fun tc => exists m, dispatch other_call tc = Ok m) tcs ->
  forall acc, exists results, handle_tool_call_from other_call acc tcs = Ok results.
Proof.
  induction 1 as [|tc rest [m Hm] _ IH]; intros acc; cbn.
  - eauto.
  - rewrite Hm. cbn. apply IH.
Qed.

(** For the offered tools, Python's binding of the keyword call agrees with
    the key part of the declared schema. *)
Lemma offered_tool_binding d :
  In d OPENAI_TOOLS ->
  exists f,
    globals_get d.(d_name) = Some (Fn f) /\
    forall kwargs, binds f kwargs = schema_keys_ok d kwargs.
Proof.
  intros [<- | [<- | []]].
  - exists record_user_details. split; [reflexivity|].
    intros kwargs. unfold binds, schema_keys_ok. cbn. apply andb_comm.
  - exists record_unknown_question. split; [reflexivity|].
    intros kwargs. unfold binds, schema_keys_ok. cbn. apply andb_comm.
Qed.

Lemma dispatch_violation other_call tc :
  violates_schema tc -> dispatch other_call tc = Raise TypeError.
Proof.
  intros (d & kwargs & Hd & Hname & Hargs & Hbad).
  destruct (offered_tool_binding d Hd) as (f & Hget & Hbinds).
  unfold dispatch. rewrite Hargs, Hname, Hget. cbn.
  rewrite Hbinds, Hbad. reflexivity.
Qed.

Lemma dispatch_unknown other_call tc :
  unknown_tool tc -> dispatch other_call tc = Ok (tool_message "{}" tc.(id)).
Proof.
  intros [Hcall [v Hargs]]. unfold dispatch. rewrite Hargs, Hcall. reflexivity.
Qed.

Lemma handle_from_unknown other_call tcs :
  Forall unknown_tool tcs ->
  forall acc,
    handle_tool_call_from other_call acc tcs
    = Ok (acc ++ map (fun tc => tool_message "{}" tc.(id)) tcs).
Proof.
  induction 1 as [|tc rest Htc _ IH]; intros acc; cbn.
  - rewrite app_nil_r. reflexivity.
  - rewrite (dispatch_unknown _ _ Htc). cbn. rewrite IH, <- app_assoc. reflexivity.
Qed.

(** ** The claims about [chat] *)

Section Claims.

Variable other_call : string -> json -> result string.
Variable create : nat -> list message -> result choice.

(** C1: one call of [chat] sends at most 12 requests to the model; and when
    the 12th request was sent and answered by a tool request whose tools ran
    (the cap is reached), [chat] returns the fixed apology string, a normal
    return and not an exception, having sent exactly 12 requests. *)
Theorem chat_call_cap self text history w :
  let run := chat other_call create self text history w in
  length (snd run).(calls) <= length w.(calls) + 12 /\
  (forall req c results,
     (snd run).(calls) !! (length w.(calls) + 11) = Some req ->
     create (length w.(calls) + 11) req = Ok c ->
     c.(finish_reason) = "tool_calls" ->
     handle_tool_call other_call c.(message_tool_calls) = Ok results ->
     fst run = Ok apology /\
     length (snd run).(calls) = length w.(calls) + 12).
Proof.
  intros run. subst run. rewrite chat_entry.
  set (m := messages_loc w). set (w1 := entry_world self text history w).
  destruct (loop_calls other_call create 12 m w1) as (new & Hnew & Hlen).
  change (calls w1) with (calls w) in Hnew.
  assert (Hle : length (calls (snd (chat_loop other_call create 12 m w1)))
                <= length (calls w) + 12).
  { rewrite Hnew, length_app. lia. }
  split; [exact Hle|].
  intros req c results Hreq Hc Hf Hh. split.
  - apply (loop_cap other_call create 11 m w1 req c results); try assumption.
    rewrite Hf. reflexivity.
  - apply lookup_lt_Some in Hreq. lia.
Qed.

(** C2: the list [chat] works on is the initial list followed by tool rounds:
    each round is an assistant message carrying the invocations it requests,
    followed by exactly one tool-result per invocation, in the order of the
    invocations, each carrying the identifier of the invocation at its
    position. *)
Theorem tool_results_follow_requests self text history w :
  exists appended,
    deref (snd (chat other_call create self text history w)) (messages_loc w)
    = initial_messages self text (deref w history) ++ appended /\
    tool_rounds appended.
Proof.
  rewrite chat_entry.
  destruct (loop_rounds other_call create 12 (messages_loc w)
              (entry_world self text history w)) as (appended & Heq & Hrounds).
  exists appended. split; [|exact Hrounds].
  rewrite Heq, deref_entry. reflexivity.
Qed.

(** C7, as the code has it: within any iteration of the loop, a response whose
    tool calls all name nothing callable in the module (with arguments that
    are JSON) is answered by tool-results whose content is the empty object,
    and the loop goes on: its next request, if the cap allows one, carries
    them.  A response in which a call to an offered tool has argument keys
    that violate the declared schema, the calls before it having run, makes
    the loop raise [TypeError] with nothing appended. *)
Theorem unknown_tool_empty_result_and_violation_raises n m w c tcs :
  create (length w.(calls)) (deref w m) = Ok c ->
  c.(finish_reason) = "tool_calls" ->
  c.(message_tool_calls) = Some tcs ->
  (Forall unknown_tool tcs ->
     let fed_back := map (fun tc => tool_message "{}" tc.(id)) tcs in
     chat_loop other_call create (S n) m w
     = chat_loop other_call create n m (next_world w m c fed_back) /\
     (0 < n ->
      (snd (chat_loop other_call create (S n) m w)).(calls) !! (length w.(calls) + 1)
      = Some (deref w m ++ assistant_message c :: fed_back))) /\
  (forall before tc after,
     tcs = before ++ tc :: after ->
     Forall (fun tc' => exists r, dispatch other_call tc' = Ok r) before ->
     violates_schema tc ->
     chat_loop other_call create (S n) m w = (Raise TypeError, sent_world w m)).
Proof.
  intros Hc Hf Htcs. split.
  - intros Hunknown fed_back.
    assert (Hstep : chat_loop other_call create (S n) m w
                    = chat_loop other_call create n m (next_world w m c fed_back)).
    { rewrite chat_loop_S, Hc, Hf, Htcs. cbn.
      rewrite (handle_from_unknown _ _ Hunknown). reflexivity. }
    split; [exact Hstep|].
    intros Hn. destruct n as [|n']; [lia|].
    rewrite Hstep.
    pose proof (loop_first_request other_call create n' m (next_world w m c fed_back)) as H1.
    cbn [next_world calls] in H1. rewrite length_app in H1. cbn [length] in H1.
    rewrite H1, deref_next, <- app_assoc. reflexivity.
  - intros before tc after -> Hbefore Hbad.
    rewrite chat_loop_S, Hc, Hf, Htcs. cbn.
    rewrite handle_from_app.
    destruct (handle_from_ok _ _ Hbefore []) as [results ->]. cbn.
    rewrite (dispatch_violation _ _ Hbad). reflexivity.
Qed.

(** C8, as the code has it: with a model that answers every request by asking
    for the same single tool, [chat] returns the apology after exactly 12
    requests when the dispatch of that tool call returns; when the call's
    argument keys violate the schema of an offered tool, [chat] raises
    [TypeError] after exactly one request. *)
Theorem same_tool_every_call self text history w c tc :
  (forall i sent, create i sent = Ok c) ->
  c.(finish_reason) = "tool_calls" ->
  c.(message_tool_calls) = Some [tc] ->
  let run := chat other_call create self text history w in
  (forall r, dispatch other_call tc = Ok r ->
     fst run = Ok apology /\ length (snd run).(calls) = length w.(calls) + 12) /\
  (violates_schema tc ->
     fst run = Raise TypeError /\ length (snd run).(calls) = length w.(calls) + 1).
Proof.
  intros Hc Hf Htcs run. subst run. rewrite chat_entry. split.
  - intros r Hr.
    assert (Hh : handle_tool_call other_call (message_tool_calls c) = Ok [r]).
    { rewrite Htcs. cbn. rewrite Hr. reflexivity. }
    assert (Hf' : String.eqb (finish_reason c) "tool_calls" = true).
    { rewrite Hf. reflexivity. }
    destruct (loop_exhausts other_call create c [r] Hc Hf' Hh 12 (messages_loc w)
                (entry_world self text history w)) as [-> ->].
    split; reflexivity.
  - intros Hbad.
    rewrite chat_loop_S, Hc, Hf, Htcs. cbn.
    rewrite (dispatch_violation _ _ Hbad). cbn.
    rewrite length_app. cbn. split; reflexivity.
Qed.

(** C9: when the model's answer to the first request is a final answer (its
    [finish_reason] is not [tool_calls]) with text [answer], [chat] returns
    exactly [answer]; it has sent that one request and no other, and its
    message list is the initial list, nothing appended. *)
Theorem final_answer_first_call self text history w c answer :
  create (length w.(calls)) (initial_messages self text (deref w history)) = Ok c ->
  c.(finish_reason) <> "tool_calls" ->
  c.(message_content) = Some answer ->
  chat other_call create self text history w =
  (Ok answer,
   {| heap := <[messages_loc w := initial_messages self text (deref w history)]> w.(heap);
      calls := w.(calls) ++ [initial_messages self text (deref w history)] |}).
Proof.
  intros Hc Hf Hcontent. rewrite chat_entry, chat_loop_S.
  cbn [entry_world calls]. unfold sent_world. rewrite deref_entry, Hc.
  apply String.eqb_neq in Hf. rewrite Hf, Hcontent. reflexivity.
Qed.

(** C10: [chat] leaves the caller's history list as it was: the messages it
    adds go to a list object that did not exist before the call, and every list
    object that did, the history among them, holds the same elements after
    the call, however the call ends. *)
Theorem chat_preserves_history self text history w items :
  w.(heap) !! history = Some items ->
  let w' := snd (chat other_call create self text history w) in
  w'.(heap) !! history = Some items /\
  w.(heap) !! messages_loc w = None /\
  (forall l, l <> messages_loc w -> w'.(heap) !! l = w.(heap) !! l).
Proof.
  intros Hh w'. subst w'. rewrite chat_entry.
  pose proof (messages_loc_fresh w) as Hfresh.
  assert (Hframe : forall l, l <> messages_loc w ->
            heap (snd (chat_loop other_call create 12 (messages_loc w)
                         (entry_world self text history w))) !! l = heap w !! l).
  { intros l Hl. rewrite loop_frame by exact Hl.
    cbn [entry_world heap]. apply lookup_insert_ne. congruence. }
  split; [|split; [exact Hfresh | exact Hframe]].
  rewrite Hframe; [exact Hh|]. intros ->. congruence.
Qed.

End Claims.

(** ** The claims at concrete inputs *)

Lemma lookup_weather_unknown : unknown_tool lookup_weather.
Proof. split; [reflexivity | eexists; reflexivity]. Qed.

Lemma only_lookup_weather_unknown : Forall unknown_tool [lookup_weather].
Proof. constructor; [exact lookup_weather_unknown | constructor]. Qed.

Lemma details_without_email_violates : violates_schema details_without_email.
Proof.
  exists RECORD_USER_DETAILS_JSON, [("name", JString "Ann")].
  split; [left; reflexivity|]. repeat split.
Qed.

Lemma question_misnamed_violates : violates_schema question_misnamed.
Proof.
  exists RECORD_UNKNOWN_QUESTION_JSON, [("query", JString "why?")].
  split; [right; left; reflexivity|]. repeat split.
Qed.

(** A model that asks for an unbound tool every time: 12 requests, then the
    apology. *)
Lemma chat_call_cap_witness :
  let run := chat no_imports (always (requests [lookup_weather])) ed "hi" 1%positive w0 in
  fst run = Ok apology /\ length (snd run).(calls) = 0 + 12.
Proof.
  intros run.
  refine (proj2 (chat_call_cap no_imports (always (requests [lookup_weather]))
                   ed "hi" 1%positive w0)
            (default [] ((snd run).(calls) !! 11))
            (requests [lookup_weather])
            [tool_message "{}" "call_3"] _ _ _ _).
  - vm_compute. reflexivity.
  - reflexivity.
  - reflexivity.
  - reflexivity.
Defined.

Lemma unknown_tool_empty_result_and_violation_raises_witness :
  let m := messages_loc w0 in
  let w := entry_world ed "hi" 1%positive w0 in
  let c := requests [lookup_weather] in
  let fed_back := [tool_message "{}" "call_3"] in
  chat_loop no_imports (always c) 12 m w
  = chat_loop no_imports (always c) 11 m (next_world w m c fed_back) /\
  (snd (chat_loop no_imports (always c) 12 m w)).(calls) !! 1
  = Some (deref w m ++ assistant_message c :: fed_back).
Proof.
  intros m w c fed_back.
  destruct (unknown_tool_empty_result_and_violation_raises
              no_imports (always c) 11 m w c [lookup_weather]
              eq_refl eq_refl eq_refl) as [Hunknown _].
  destruct (Hunknown only_lookup_weather_unknown) as [Hstep Hnext].
  split; [exact Hstep | apply Hnext; lia].
Defined.

Lemma same_tool_every_call_witness :
  let run := chat no_imports (always (requests [good_question])) ed "hi" 1%positive w0 in
  fst run = Ok apology /\ length (snd run).(calls) = 0 + 12.
Proof.
  intros run.
  refine (proj1 (same_tool_every_call no_imports (always (requests [good_question]))
                   ed "hi" 1%positive w0 (requests [good_question]) good_question
                   _ eq_refl eq_refl)
            (tool_message (json_dumps (PyDict [("recorded", "ok")])) "call_4") _).
  - intros i sent. reflexivity.
  - reflexivity.
Defined.

Lemma final_answer_first_call_witness :
  chat no_imports (always (final_answer "X")) ed "hi" 1%positive w0 =
  (Ok "X",
   {| heap := <[messages_loc w0 := initial_messages ed "hi" [greeting]]> w0.(heap);
      calls := [initial_messages ed "hi" [greeting]] |}).
Proof.
  refine (final_answer_first_call no_imports (always (final_answer "X"))
            ed "hi" 1%positive w0 (final_answer "X") "X" eq_refl _ eq_refl).
  discriminate.
Defined.

Lemma chat_preserves_history_witness :
  let w' := snd (chat no_imports (always (requests [lookup_weather])) ed "hi" 1%positive w0) in
  w'.(heap) !! 1%positive = Some [greeting] /\
  w0.(heap) !! messages_loc w0 = None /\
  (forall l, l <> messages_loc w0 -> w'.(heap) !! l = w0.(heap) !! l).
Proof.
  refine (chat_preserves_history no_imports (always (requests [lookup_weather]))
            ed "hi" 1%positive w0 [greeting] _).
  reflexivity.
Defined.

(** C7 as stated fails: the model asks for [record_user_details] without the
    required [email]; no tool-result is fed back, [chat] raises [TypeError]
    after its first request and its message list is still the initial one. *)
Lemma schema_violation_aborts_chat :
  let run := chat no_imports (always (requests [details_without_email]))
               ed "hi" 1%positive w0 in
  violates_schema details_without_email /\
  fst run = Raise TypeError /\
  length (snd run).(calls) = 1 /\
  deref (snd run) (messages_loc w0) = initial_messages ed "hi" [greeting].
Proof.
  split; [exact details_without_email_violates|].
  vm_compute. repeat split; reflexivity.
Qed.

(** C8 as stated fails: the model always asks for [record_unknown_question]
    with a misnamed key; [chat] does not reach the apology after 12 requests,
    it raises [TypeError] after one. *)
Lemma failing_validation_raises_after_one_call :
  let run := chat no_imports (always (requests [question_misnamed]))
               ed "hi" 1%positive w0 in
  violates_schema question_misnamed /\
  fst run = Raise TypeError /\
  fst run <> Ok apology /\
  length (snd run).(calls) = 1.
Proof.
  split; [exact question_misnamed_violates|].
  vm_compute. repeat split; [discriminate].
Qed.

End AppProofs.

(** * Properties of the research pipeline *)
Module DeepResearchProofs.
Import DeepResearch ResearchProps.

(** ** The collecting loop *)

Lemma collect_returned completed :
  Forall returned completed ->
  forall results,
    collect results completed = Ok (results ++ summaries completed).
Proof.
  induction 1 as [|task rest [r ->] _ IH]; intros results; cbn.
  - rewrite app_nil_r. reflexivity.
  - rewrite IH. destruct r as [summary|]; cbn.
    + rewrite <- app_assoc. reflexivity.
    + reflexivity.
Qed.

Lemma summaries_all tasks :
  Forall (fun task => exists summary, task = Ok (Some summary)) tasks ->
  length (summaries tasks) = length tasks.
Proof.
  induction 1 as [|task rest [summary ->] _ IH]; cbn; [reflexivity|].
  unfold summaries in IH. rewrite IH. reflexivity.
Qed.

Lemma summaries_none tasks :
  Forall (fun task => task = Ok None) tasks -> summaries tasks = [].
Proof.
  induction 1 as [|task rest -> _ IH]; cbn; [reflexivity | exact IH].
Qed.

Lemma summaries_one_failure tasks k :
  tasks !! k = Some (Ok None) ->
  (forall i task, tasks !! i = Some task -> i <> k ->
     exists summary, task = Ok (Some summary)) ->
  length (summaries tasks) = length tasks - 1.
Proof.
  intros Hk Hgood. pose proof (lookup_lt_Some _ _ _ Hk) as Hlt.
  rewrite <- (take_drop_middle tasks k _ Hk) at 1.
  unfold summaries. rewrite omap_app, length_app.
  change (omap summary_of (Ok None :: drop (S k) tasks))
    with (summaries (drop (S k) tasks)).
  fold (summaries (take k tasks)).
  rewrite !summaries_all.
  - rewrite length_take_le, length_drop by lia. lia.
  - apply Forall_lookup_2. intros i task Hi. rewrite lookup_drop in Hi.
    apply (Hgood _ _ Hi). lia.
  - apply Forall_lookup_2. intros i task Hi. apply lookup_take_Some in Hi as [Hi Hi'].
    apply (Hgood _ _ Hi). lia.
Qed.

Section Executor.

Variable Runner_run_search : nat -> Agent -> string -> result string.
Variable as_completed :
  list (result (option string)) -> list (result (option string)).

(** Every task is handed back, once, in some order. *)
Hypothesis as_completed_perm : forall tasks, as_completed tasks ≡ₚ tasks.

Local Abbreviation search := (search Runner_run_search).
Local Abbreviation perform_searches :=
  (perform_searches Runner_run_search as_completed).

Lemma search_succeeds i item out :
  Runner_run_search i search_agent (search_input item) = Ok out ->
  search i item = Ok (Some out).
Proof. unfold DeepResearch.search. intros ->. reflexivity. Qed.

Lemma search_swallows i item e :
  Runner_run_search i search_agent (search_input item) = Raise e ->
  is_Exception e = true ->
  search i item = Ok None.
Proof. unfold DeepResearch.search. intros -> ->. reflexivity. Qed.

(** When every task returns, the result is the summaries of the tasks in
    completion order: a rearrangement of the summaries in submission
    order. *)
Lemma perform_searches_returned plan :
  Forall returned (imap search plan.(searches)) ->
  exists results,
    perform_searches plan = Ok results /\
    results ≡ₚ summaries (imap search plan.(searches)).
Proof.
  intros Hret. exists (summaries (as_completed (imap search (searches plan)))).
  split.
  - unfold DeepResearch.perform_searches. rewrite collect_returned; [reflexivity|].
    rewrite as_completed_perm. exact Hret.
  - unfold summaries. rewrite as_completed_perm. reflexivity.
Qed.

Lemma task_of_item plan i task :
  imap search plan.(searches) !! i = Some task ->
  exists item, plan.(searches) !! i = Some item /\ task = search i item.
Proof. intros H. apply list_lookup_imap_Some in H. exact H. Qed.

(** C3: in a plan of N items whose unit [k] fails with an [Exception] while
    every other unit succeeds, [perform_searches] returns a list of exactly
    N - 1 summaries, whatever the order in which the tasks complete. *)
Theorem one_failure_drops_one_result plan k :
  k < length plan.(searches) ->
  (forall i item,
     plan.(searches) !! i = Some item -> i <> k ->
     exists out, Runner_run_search i search_agent (search_input item) = Ok out) ->
  (forall item,
     plan.(searches) !! k = Some item ->
     exists e, Runner_run_search k search_agent (search_input item) = Raise e /\
               is_Exception e = true) ->
  exists results,
    perform_searches plan = Ok results /\
    length results = length plan.(searches) - 1.
Proof.
  intros Hk Hothers Hfails.
  set (tasks := imap search (searches plan)).
  assert (Hgood : forall i task, tasks !! i = Some task -> i <> k ->
            exists summary, task = Ok (Some summary)).
  { intros i task Hi Hne. destruct (task_of_item _ _ _ Hi) as (item & Hitem & ->).
    destruct (Hothers i item Hitem Hne) as [out Hout].
    exists out. apply search_succeeds. exact Hout. }
  assert (Hbad : forall task, tasks !! k = Some task -> task = Ok None).
  { intros task Hi. destruct (task_of_item _ _ _ Hi) as (item & Hitem & ->).
    destruct (Hfails item Hitem) as (e & He & Hexc).
    eapply search_swallows; eassumption. }
  assert (Hret : Forall returned tasks).
  { apply Forall_lookup_2. intros i task Hi.
    destruct (decide (i = k)) as [->|Hne].
    - exists None. apply Hbad. exact Hi.
    - destruct (Hgood i task Hi Hne) as [summary ->]. eexists. reflexivity. }
  destruct (perform_searches_returned plan Hret) as (results & Hrun & Hperm).
  exists results. split; [exact Hrun|].
  rewrite Hperm. fold tasks.
  assert (Hlen : length tasks = length (searches plan)).
  { apply length_imap. }
  destruct (lookup_lt_is_Some_2 tasks k) as [tk Htk]; [lia|].
  pose proof (Hbad tk Htk) as ->.
  rewrite (summaries_one_failure tasks k Htk Hgood), Hlen. reflexivity.
Qed.

(** C4: when every search unit fails with an [Exception], [perform_searches]
    returns the empty list, a normal return.  And when the failures of the
    units that fail are [Exception]s, [perform_searches] returns, and the
    summary of every unit that succeeded is in its result: one unit's failure
    neither reaches the caller nor costs another unit its result. *)
Theorem failed_searches_are_swallowed plan :
  ((forall i item,
      plan.(searches) !! i = Some item ->
      exists e, Runner_run_search i search_agent (search_input item) = Raise e /\
                is_Exception e = true) ->
   perform_searches plan = Ok []) /\
  ((forall i item e,
      plan.(searches) !! i = Some item ->
      Runner_run_search i search_agent (search_input item) = Raise e ->
      is_Exception e = true) ->
   exists results,
     perform_searches plan = Ok results /\
     forall i item out,
       plan.(searches) !! i = Some item ->
       Runner_run_search i search_agent (search_input item) = Ok out ->
       out ∈ results).
Proof.
  set (tasks := imap search (searches plan)). split.
  - intros Hfail.
    assert (Hnone : Forall (fun task => task = Ok None) tasks).
    { apply Forall_lookup_2. intros i task Hi.
      destruct (task_of_item _ _ _ Hi) as (item & Hitem & ->).
      destruct (Hfail i item Hitem) as (e & He & Hexc).
      eapply search_swallows; eassumption. }
    assert (Hret : Forall returned tasks).
    { eapply Forall_impl; [exact Hnone|]. intros task ->. exists None. reflexivity. }
    destruct (perform_searches_returned plan Hret) as (results & Hrun & Hperm).
    fold tasks in Hperm. rewrite (summaries_none _ Hnone) in Hperm.
    apply Permutation_nil_r in Hperm. subst results. exact Hrun.
  - intros Hexc.
    assert (Hret : Forall returned tasks).
    { apply Forall_lookup_2. intros i task Hi.
      destruct (task_of_item _ _ _ Hi) as (item & Hitem & ->).
      destruct (Runner_run_search i search_agent (search_input item)) as [out|e] eqn:Hrun.
      - exists (Some out). apply search_succeeds. exact Hrun.
      - exists None. eapply search_swallows; [exact Hrun|]. eapply Hexc; eassumption. }
    destruct (perform_searches_returned plan Hret) as (results & Hrun & Hperm).
    exists results. split; [exact Hrun|].
    intros i item out Hitem Hout. rewrite Hperm.
    apply list_elem_of_omap. exists (Ok (Some out)). split; [|reflexivity].
    apply list_elem_of_lookup. exists i. fold tasks. unfold tasks.
    rewrite list_lookup_imap, Hitem. cbn.
    rewrite (search_succeeds _ _ _ Hout). reflexivity.
Qed.

End Executor.

(** ** The planner and the pipeline *)

Section Pipeline.

Variable Runner_run_plan : Agent -> string -> result WebSearchPlan.
Variable Runner_run_search : nat -> Agent -> string -> result string.
Variable Runner_run_report : Agent -> string -> result ReportData.
Variable Runner_run_email : Agent -> string -> result unit.
Variable gen_trace_id : string.
Variable str_of_list : list string -> string.
Variable as_completed :
  list (result (option string)) -> list (result (option string)).

(** C6, as the code has it: [plan_searches] returns the plan the planner
    model produced, unchanged, whatever the number of its items; the
    configured number, 5, reaches the model in the planner's instructions and
    is checked nowhere. *)
Theorem plan_searches_returns_model_plan query plan :
  Runner_run_plan planner_agent ("Query: " +:+ query) = Ok plan ->
  plan_searches Runner_run_plan query = Ok plan /\
  HOW_MANY_SEARCHES = 5 /\
  planner_agent.(instructions) =
    "You are a helpful research assistant. Given a query, come up with a set of web searches to perform to best answer the query. Output 5 terms to query for.".
Proof.
  intros Hrun. unfold plan_searches. rewrite Hrun.
  split; [reflexivity | split; reflexivity].
Qed.

(** C5: when the generator [run] runs to its end, the events it has yielded
    are, in this order and once each: the trace link, then the status lines
    of the plan, search, write and send stages, then the markdown of the
    report the writer produced; this for every order in which the searches
    complete. *)
Theorem run_events_in_stage_order query :
  let events := run Runner_run_plan Runner_run_search Runner_run_report
                  Runner_run_email gen_trace_id str_of_list as_completed query in
  snd events = Ok tt ->
  exists plan results report,
    plan_searches Runner_run_plan query = Ok plan /\
    perform_searches Runner_run_search as_completed plan = Ok results /\
    write_report Runner_run_report str_of_list query results = Ok report /\
    fst events = trace_line gen_trace_id :: stage_lines ++ [report.(markdown_report)].
Proof.
  intros events. subst events. unfold run, mbind, G_bind, yield, await.
  destruct (plan_searches Runner_run_plan query) as [plan|e] eqn:Hplan;
    [|discriminate].
  destruct (perform_searches Runner_run_search as_completed plan) as [results|e]
    eqn:Hsearch; [|discriminate].
  destruct (write_report Runner_run_report str_of_list query results) as [report|e]
    eqn:Hwrite; [|discriminate].
  destruct (send_email Runner_run_email report) as [[]|e]; [|discriminate].
  intros _. exists plan, results, report. repeat split; assumption.
Qed.

End Pipeline.

(** ** The claims at concrete inputs *)

Lemma last_first_perm tasks : last_first tasks ≡ₚ tasks.
Proof. unfold last_first. symmetry. apply Permutation_rev. Qed.

(** Three searches, the second times out, the last one completes first. *)
Lemma one_failure_drops_one_result_witness :
  exists results,
    perform_searches (times_out_at 1) last_first three_items = Ok results /\
    length results = 3 - 1.
Proof.
  apply (one_failure_drops_one_result (times_out_at 1) last_first last_first_perm
           three_items 1).
  - cbn. lia.
  - intros i item _ Hne. unfold times_out_at.
    destruct (Nat.eqb_spec i 1) as [Heq|_]; [contradiction|].
    eexists. reflexivity.
  - intros item _. eexists. split; reflexivity.
Defined.

Lemma failed_searches_are_swallowed_witness :
  perform_searches all_time_out last_first three_items = Ok [].
Proof.
  apply (proj1 (failed_searches_are_swallowed all_time_out last_first last_first_perm
                  three_items)).
  intros i item _. eexists. split; reflexivity.
Defined.

Lemma plan_searches_returns_model_plan_witness :
  plan_searches plans_three "solar power" = Ok three_items /\
  HOW_MANY_SEARCHES = 5 /\
  planner_agent.(instructions) =
    "You are a helpful research assistant. Given a query, come up with a set of web searches to perform to best answer the query. Output 5 terms to query for.".
Proof.
  apply (plan_searches_returns_model_plan plans_three "solar power" three_items).
  reflexivity.
Defined.

Lemma run_events_in_stage_order_witness :
  exists plan results report,
    plan_searches plans_three "solar power" = Ok plan /\
    perform_searches (times_out_at 1) last_first plan = Ok results /\
    write_report writes_report comma_separated "solar power" results = Ok report /\
    fst (run plans_three (times_out_at 1) writes_report sends "trace_1"
           comma_separated last_first "solar power")
    = [ "View trace: https://platform.openai.com/traces/trace?trace_id=trace_1";
        "Searches planned, starting to search...";
        "Searches complete, writing report...";
        "Report written, sending email...";
        "Email sent, research complete";
        "# Report" ].
Proof.
  destruct (run_events_in_stage_order plans_three (times_out_at 1) writes_report sends
              "trace_1" comma_separated last_first "solar power" eq_refl)
    as (plan & results & report & Hplan & Hsearch & Hwrite & Hevents).
  exists plan, results, report.
  split; [exact Hplan|]. split; [exact Hsearch|]. split; [exact Hwrite|].
  rewrite Hevents. injection Hwrite as <-. reflexivity.
Defined.

(** C6 as stated fails: the planner model answers with three items and
    [plan_searches] returns that plan, three items and not the configured
    five. *)
Lemma plan_of_three_items_is_returned :
  plan_searches plans_three "solar power" = Ok three_items /\
  length three_items.(searches) = 3 /\
  length three_items.(searches) <> HOW_MANY_SEARCHES.
Proof.
  split; [reflexivity|]. split; [reflexivity|]. cbv. lia.
Qed.

End DeepResearchProofs.

(** * Further properties of the persona chat loop *)
Module ChatMore.
Import App Props Examples MoreProps AppProofs.

Section Outcome.

Variable other_call : string -> json -> result string.
Variable create : nat -> list message -> result choice.

(** If a request the loop sent got an answer that ends the loop, that request
    is the last one, the loop ends with what the answer gives, and the list at
    [m] is the request as it was sent. *)
Lemma loop_stops n :
  forall m w i req out,
    length w.(calls) <= i ->
    (snd (chat_loop other_call create n m w)).(calls) !! i = Some req ->
    stops other_call (create i req) = Some out ->
    fst (chat_loop other_call create n m w) = out /\
    length (snd (chat_loop other_call create n m w)).(calls) = S i /\
    deref (snd (chat_loop other_call create n m w)) m = req.
Proof.
  induction n as [|n IH]; intros m w i req out Hi Hreq Hstop.
  - cbn in Hreq. apply lookup_lt_Some in Hreq. lia.
  - destruct (decide (i = length (calls w))) as [->|Hne].
    + rewrite loop_first_request in Hreq. injection Hreq as <-.
      revert Hstop. unfold stops. rewrite chat_loop_S.
      destruct (create (length (calls w)) (deref w m)) as [c|e].
      * destruct (String.eqb (finish_reason c) "tool_calls").
        -- destruct (handle_tool_call other_call (message_tool_calls c)) as [results|e];
             [discriminate|].
           intros [= <-]. cbn. rewrite length_app. cbn.
           repeat split; lia.
        -- intros [= <-]. cbn. rewrite length_app. cbn. repeat split; lia.
      * intros [= <-]. cbn. rewrite length_app. cbn. repeat split; lia.
    + revert Hreq. rewrite chat_loop_S.
      destruct (create (length (calls w)) (deref w m)) as [c|e];
        [destruct (String.eqb (finish_reason c) "tool_calls");
         [destruct (handle_tool_call other_call (message_tool_calls c)) as [results|e]|]|];
        try (cbn [snd sent_world calls]; intros Hreq; apply lookup_lt_Some in Hreq;
             rewrite length_app in Hreq; cbn in Hreq; lia).
      intros Hreq. apply IH; try assumption.
      cbn [next_world calls]. rewrite length_app. cbn. lia.
Qed.

(** Every request the loop sends starts with the list at [m] as the loop
    found it. *)
Lemma loop_requests_extend n :
  forall m w j b,
    length w.(calls) <= j ->
    (snd (chat_loop other_call create n m w)).(calls) !! j = Some b ->
    exists added, b = deref w m ++ added.
Proof.
  induction n as [|n IH]; intros m w j b Hj Hb.
  - cbn in Hb. apply lookup_lt_Some in Hb. lia.
  - destruct (decide (j = length (calls w))) as [->|Hne].
    + rewrite loop_first_request in Hb. injection Hb as <-.
      exists []. rewrite app_nil_r. reflexivity.
    + revert Hb. rewrite chat_loop_S.
      destruct (create (length (calls w)) (deref w m)) as [c|e];
        [destruct (String.eqb (finish_reason c) "tool_calls");
         [destruct (handle_tool_call other_call (message_tool_calls c)) as [results|e]|]|];
        try (cbn [snd sent_world calls]; intros Hb; apply lookup_lt_Some in Hb;
             rewrite length_app in Hb; cbn in Hb; lia).
      intros Hb.
      destruct (IH m (next_world w m c results) j b) as [added ->]; [|exact Hb|].
      * cbn [next_world calls]. rewrite length_app. cbn. lia.
      * rewrite deref_next, <- !app_assoc. eexists. reflexivity.
Qed.

(** Of two requests the loop sends, the later one is the earlier one with
    messages added at its end. *)
Lemma loop_requests_grow n :
  forall m w i j a b,
    length w.(calls) <= i -> i < j ->
    (snd (chat_loop other_call create n m w)).(calls) !! i = Some a ->
    (snd (chat_loop other_call create n m w)).(calls) !! j = Some b ->
    exists added, added <> [] /\ b = a ++ added.
Proof.
  induction n as [|n IH]; intros m w i j a b Hi Hij Ha Hb.
  - cbn in Ha. apply lookup_lt_Some in Ha. lia.
  - revert Ha Hb.
    destruct (decide (i = length (calls w))) as [->|Hne].
    + rewrite loop_first_request. intros [= <-]. rewrite chat_loop_S.
      destruct (create (length (calls w)) (deref w m)) as [c|e];
        [destruct (String.eqb (finish_reason c) "tool_calls");
         [destruct (handle_tool_call other_call (message_tool_calls c)) as [results|e]|]|];
        try (cbn [snd sent_world calls]; intros Hb; apply lookup_lt_Some in Hb;
             rewrite length_app in Hb; cbn in Hb; lia).
      intros Hb.
      destruct (loop_requests_extend n m (next_world w m c results) j b) as [added ->];
        [|exact Hb|].
      * cbn [next_world calls]. rewrite length_app. cbn. lia.
      * rewrite deref_next, <- !app_assoc. eexists. split; [|reflexivity].
        discriminate.
    + rewrite chat_loop_S.
      destruct (create (length (calls w)) (deref w m)) as [c|e];
        [destruct (String.eqb (finish_reason c) "tool_calls");
         [destruct (handle_tool_call other_call (message_tool_calls c)) as [results|e]|]|];
        try (cbn [snd sent_world calls]; intros Ha; apply lookup_lt_Some in Ha;
             rewrite length_app in Ha; cbn in Ha; lia).
      intros Ha Hb. apply (IH m (next_world w m c results) i j a b); try assumption.
      cbn [next_world calls]. rewrite length_app. cbn. lia.
Qed.

(** [chat] always calls the model: its first request is the system message,
    then the caller's history, then the user's message. *)
Theorem chat_first_request self text history w :
  (snd (chat other_call create self text history w)).(calls) !! length w.(calls)
  = Some ([system_message self] ++ deref w history ++ [user_message text]).
Proof.
  rewrite chat_entry.
  pose proof (loop_first_request other_call create 11 (messages_loc w)
                (entry_world self text history w)) as H.
  cbn [entry_world calls] in H. rewrite H.
  rewrite deref_entry. reflexivity.
Qed.

(** The conversation sent to the model only grows: of two requests of one
    call of [chat], the later one is the earlier one followed by at least one
    more message. *)
Theorem chat_requests_grow self text history w i j a b :
  length w.(calls) <= i -> i < j ->
  (snd (chat other_call create self text history w)).(calls) !! i = Some a ->
  (snd (chat other_call create self text history w)).(calls) !! j = Some b ->
  exists added, added <> [] /\ b = a ++ added.
Proof.
  rewrite chat_entry. intros Hi Hij Ha Hb.
  eapply (loop_requests_grow 12 (messages_loc w) (entry_world self text history w));
    eassumption.
Qed.

(** A failed model call is not retried: when the model call for a request of
    this turn raises, [chat] raises the same exception and that request is the
    last one sent. *)
Theorem model_failure_ends_chat self text history w i req e :
  length w.(calls) <= i ->
  (snd (chat other_call create self text history w)).(calls) !! i = Some req ->
  create i req = Raise e ->
  fst (chat other_call create self text history w) = Raise e /\
  length (snd (chat other_call create self text history w)).(calls) = S i.
Proof.
  rewrite chat_entry. intros Hi Hreq He.
  destruct (loop_stops 12 (messages_loc w)
              (entry_world self text history w) i req (Raise e)) as (H1 & H2 & _);
    try assumption.
  - unfold stops. rewrite He. reflexivity.
  - split; assumption.
Qed.

(** In whatever round the model answers without asking for tools, [chat]
    returns the content of that answer, the empty string when the answer has
    no content; no further request is sent and the message list is the last
    request as it was sent. *)
Theorem answer_in_any_round self text history w i req c :
  length w.(calls) <= i ->
  (snd (chat other_call create self text history w)).(calls) !! i = Some req ->
  create i req = Ok c ->
  c.(finish_reason) <> "tool_calls" ->
  let run := chat other_call create self text history w in
  fst run = Ok (match c.(message_content) with
                | Some answer => answer
                | None => EmptyString
                end) /\
  length (snd run).(calls) = S i /\
  deref (snd run) (messages_loc w) = req.
Proof.
  intros Hi Hreq Hc Hf run. subst run. revert Hreq. rewrite chat_entry. intros Hreq.
  apply (loop_stops 12 (messages_loc w)
           (entry_world self text history w) i req); try assumption.
  unfold stops. rewrite Hc. apply String.eqb_neq in Hf. rewrite Hf. reflexivity.
Qed.

(** When the tools of a tool request raise, [chat] raises that exception at
    once: no further request is sent, and neither the assistant message nor
    any tool-result of that round is added to the message list. *)
Theorem tool_failure_ends_chat self text history w i req c e :
  length w.(calls) <= i ->
  (snd (chat other_call create self text history w)).(calls) !! i = Some req ->
  create i req = Ok c ->
  c.(finish_reason) = "tool_calls" ->
  handle_tool_call other_call c.(message_tool_calls) = Raise e ->
  let run := chat other_call create self text history w in
  fst run = Raise e /\
  length (snd run).(calls) = S i /\
  deref (snd run) (messages_loc w) = req.
Proof.
  intros Hi Hreq Hc Hf Hh run. subst run. revert Hreq. rewrite chat_entry. intros Hreq.
  apply (loop_stops 12 (messages_loc w)
           (entry_world self text history w) i req); try assumption.
  unfold stops. rewrite Hc, Hf, Hh. reflexivity.
Qed.

(** Arguments that are not JSON stop [handle_tool_call] with
    [JSONDecodeError] whatever tool the call names, an unbound name included:
    the arguments are parsed before the name is looked up. *)
Theorem malformed_arguments_raise before tc after raw :
  Forall (fun tc' => exists r, dispatch other_call tc' = Ok r) before ->
  tc.(function).(arguments) = Malformed raw ->
  handle_tool_call other_call (Some (before ++ tc :: after)) = Raise JSONDecodeError.
Proof.
  intros Hbefore Hraw. cbn. rewrite handle_from_app.
  destruct (handle_from_ok _ _ Hbefore []) as [results ->]. cbn.
  unfold dispatch. rewrite Hraw. reflexivity.
Qed.


End Outcome.

(** ** At concrete inputs *)

Lemma chat_requests_grow_witness :
  let sent := (snd (chat no_imports two_rounds_then_answer ed "hi" 1%positive w0)).(calls) in
  exists added,
    added <> [] /\ default [] (sent !! 2) = default [] (sent !! 0) ++ added.
Proof.
  intros sent.
  apply (chat_requests_grow no_imports two_rounds_then_answer ed "hi" 1%positive w0
           0 2 (default [] (sent !! 0)) (default [] (sent !! 2))).
  - cbn. lia.
  - lia.
  - vm_compute. reflexivity.
  - vm_compute. reflexivity.
Defined.

Lemma model_failure_ends_chat_witness :
  let run := chat no_imports third_call_fails ed "hi" 1%positive w0 in
  fst run = Raise (RemoteError "rate limit") /\ length (snd run).(calls) = 3.
Proof.
  intros run.
  apply (model_failure_ends_chat no_imports third_call_fails ed "hi" 1%positive w0
           2 (default [] ((snd run).(calls) !! 2)) (RemoteError "rate limit")).
  - cbn. lia.
  - vm_compute. reflexivity.
  - reflexivity.
Defined.

Lemma answer_in_any_round_witness :
  let run := chat no_imports silent_after_one_round ed "hi" 1%positive w0 in
  fst run = Ok EmptyString /\
  length (snd run).(calls) = 2 /\
  deref (snd run) (messages_loc w0) = default [] ((snd run).(calls) !! 1).
Proof.
  intros run.
  apply (answer_in_any_round no_imports silent_after_one_round ed "hi" 1%positive w0
           1 (default [] ((snd run).(calls) !! 1))
           {| finish_reason := "length"; message_content := None;
              message_tool_calls := None |}).
  - cbn. lia.
  - vm_compute. reflexivity.
  - reflexivity.
  - discriminate.
Defined.

Lemma tool_failure_ends_chat_witness :
  let run := chat no_imports (always (requests [unparsable_call])) ed "hi" 1%positive w0 in
  fst run = Raise JSONDecodeError /\
  length (snd run).(calls) = 1 /\
  deref (snd run) (messages_loc w0) = default [] ((snd run).(calls) !! 0).
Proof.
  intros run.
  apply (tool_failure_ends_chat no_imports (always (requests [unparsable_call]))
           ed "hi" 1%positive w0
           0 (default [] ((snd run).(calls) !! 0)) (requests [unparsable_call])
           JSONDecodeError).
  - cbn. lia.
  - vm_compute. reflexivity.
  - reflexivity.
  - reflexivity.
  - reflexivity.
Defined.

Lemma malformed_arguments_raise_witness :
  handle_tool_call no_imports (Some ([good_question] ++ unparsable_call :: [lookup_weather]))
  = Raise JSONDecodeError.
Proof.
  apply (malformed_arguments_raise no_imports [good_question] unparsable_call
           [lookup_weather] "{city:").
  - constructor; [|constructor]. eexists. reflexivity.
  - reflexivity.
Defined.


End ChatMore.

(** * Properties of the notifications *)
Module ToolEffects.
Import Props Examples MoreProps.

Section Effects.

Variable getenv : string -> option string.
Variable requests_post : nat -> AppIO.post -> AppIO.post_outcome.
Variable py_str : App.json -> string.
Variable other_call : string -> App.json -> result string.

Local Abbreviation push := (AppIO.push getenv requests_post).
Local Abbreviation run := (AppIO.run getenv requests_post py_str).
Local Abbreviation call := (AppIO.call getenv requests_post py_str).
Local Abbreviation dispatch := (AppIO.dispatch getenv requests_post py_str other_call).
Local Abbreviation handle_from :=
  (AppIO.handle_tool_call_from getenv requests_post py_str other_call).
Local Abbreviation handle :=
  (AppIO.handle_tool_call getenv requests_post py_str other_call).

Local Abbreviation credentials_missing := (MoreProps.credentials_missing getenv).

(** [push] posts nothing or one request, and the request carries [text]. *)
Lemma push_posts text log :
  snd (push text log) = log \/
  exists request,
    snd (push text log) = log ++ [request] /\ request.(AppIO.message) = text.
Proof.
  unfold AppIO.push.
  destruct (AppIO.falsy _ || AppIO.falsy _); [left; reflexivity|].
  right. destruct (requests_post _ _); eexists; split; reflexivity.
Qed.

Lemma push_quiet text log :
  credentials_missing = true -> push text log = (Ok tt, log).
Proof. unfold MoreProps.credentials_missing, AppIO.push. intros ->. reflexivity. Qed.

Lemma push_returns text log :
  (forall i p e, requests_post i p <> AppIO.RaisesOther e) ->
  fst (push text log) = Ok tt.
Proof.
  intros Hpost. unfold AppIO.push.
  destruct (AppIO.falsy _ || AppIO.falsy _); [reflexivity|].
  destruct (requests_post _ _) eqn:H; try reflexivity.
  exfalso. eapply Hpost. exact H.
Qed.

Lemma push_with_credentials text tok usr log :
  getenv "PUSHOVER_TOKEN" = Some tok -> App.truthy tok = true ->
  getenv "PUSHOVER_USER" = Some usr -> App.truthy usr = true ->
  let request :=
    {| AppIO.url := AppIO.PUSHOVER_ENDPOINT; AppIO.timeout := 5;
       AppIO.token := tok; AppIO.user := usr; AppIO.message := text |} in
  push text log =
  (match requests_post (length log) request with
   | AppIO.RaisesOther e => Raise e
   | _ => Ok tt
   end, log ++ [request]).
Proof.
  intros Htok Htt Husr Hut request. unfold AppIO.push.
  rewrite Htok, Husr. cbn [AppIO.falsy or_else]. rewrite Htt, Hut. cbn [negb orb].
  fold request. destruct (requests_post (length log) request); reflexivity.
Qed.

(** A tool body is its push followed by its return value. *)
Lemma run_push f kwargs log :
  exists text,
    run f kwargs log =
    (match fst (push text log) with
     | Ok _ => Ok (App.body f)
     | Raise e => Raise e
     end, snd (push text log)).
Proof.
  destruct f; cbn;
    unfold AppIO.record_user_details, AppIO.record_unknown_question, mbind, AppIO.IO_bind;
    match goal with
    | |- context [AppIO.push _ _ ?t log] =>
        exists t; destruct (AppIO.push getenv requests_post t log) as [[[]|e] log']
    end; reflexivity.
Qed.

(** What [dispatch] does, laid out along the cases of the pure [App.dispatch]:
    the store changes only where a tool body runs. *)
Lemma dispatch_cases tc log :
  (dispatch tc log = (App.dispatch other_call tc, log)) \/
  (exists f kwargs,
     App.globals_get tc.(App.function).(App.name) = Some (App.Fn f) /\
     tc.(App.function).(App.arguments) = App.Document (App.JObject kwargs) /\
     App.binds f kwargs = true /\
     dispatch tc log =
     (match fst (run f kwargs log) with
      | Ok resp => Ok (tool_message (App.json_dumps resp) tc.(App.id))
      | Raise e => Raise e
      end, snd (run f kwargs log))).
Proof.
  unfold AppIO.dispatch, App.dispatch, mbind, AppIO.IO_bind, AppIO.lift.
  destruct (App.json_loads _) as [arguments|e] eqn:Hload; [|left; reflexivity].
  cbn [result_bind].
  destruct (App.globals_get _) as [[f| |]|] eqn:Hget; cbn [App.callable].
  - destruct arguments as [| | | | |kwargs]; try (left; reflexivity).
    cbn [AppIO.call App.call].
    destruct (App.binds f kwargs) eqn:Hbinds; [|left; reflexivity].
    right. exists f, kwargs.
    destruct (App.arguments (App.function tc)) as [v|raw]; [|discriminate].
    cbn in Hload. injection Hload as ->.
    repeat split; try assumption.
    destruct (AppIO.run _ _ _ f kwargs log) as [[resp|e] log']; reflexivity.
  - left. destruct (other_call _ _); reflexivity.
  - left. reflexivity.
  - left. reflexivity.
Qed.

Lemma app_dispatch_bound tc f kwargs :
  App.globals_get tc.(App.function).(App.name) = Some (App.Fn f) ->
  tc.(App.function).(App.arguments) = App.Document (App.JObject kwargs) ->
  App.binds f kwargs = true ->
  App.dispatch other_call tc
  = Ok (tool_message (App.json_dumps (App.body f)) tc.(App.id)).
Proof.
  intros Hget Hargs Hbinds. unfold App.dispatch. rewrite Hargs, Hget. cbn.
  rewrite Hbinds. reflexivity.
Qed.

Lemma dispatch_log tc log :
  exists new, snd (dispatch tc log) = log ++ new /\ length new <= 1.
Proof.
  destruct (dispatch_cases tc log) as [-> | (f & kwargs & _ & _ & _ & ->)].
  - exists []. rewrite app_nil_r. split; [reflexivity | cbn; lia].
  - destruct (run_push f kwargs log) as [text ->]. cbn [snd].
    destruct (push_posts text log) as [-> | (request & -> & _)].
    + exists []. rewrite app_nil_r. split; [reflexivity | cbn; lia].
    + exists [request]. split; [reflexivity | cbn; lia].
Qed.

Lemma dispatch_pure tc log :
  (forall text log', fst (push text log') = Ok tt) ->
  fst (dispatch tc log) = App.dispatch other_call tc.
Proof.
  intros Hret.
  destruct (dispatch_cases tc log) as [-> | (f & kwargs & Hget & Hargs & Hbinds & ->)];
    [reflexivity|].
  destruct (run_push f kwargs log) as [text ->]. cbn [fst].
  rewrite Hret, (app_dispatch_bound _ _ _ Hget Hargs Hbinds). reflexivity.
Qed.

Lemma handle_from_cons acc tc rest log :
  handle_from acc (tc :: rest) log =
  match dispatch tc log with
  | (Ok m, log') => handle_from (acc ++ [m]) rest log'
  | (Raise e, log') => (Raise e, log')
  end.
Proof. reflexivity. Qed.

Lemma handle_from_pure tcs :
  (forall text log', fst (push text log') = Ok tt) ->
  forall acc log,
    fst (handle_from acc tcs log) = App.handle_tool_call_from other_call acc tcs.
Proof.
  intros Hret. induction tcs as [|tc rest IH]; intros acc log; [reflexivity|].
  rewrite handle_from_cons. cbn [App.handle_tool_call_from].
  rewrite <- (dispatch_pure tc log Hret).
  destruct (dispatch tc log) as [[m|e] log']; cbn; [apply IH | reflexivity].
Qed.

Lemma handle_from_log tcs :
  forall acc log,
    exists new,
      snd (handle_from acc tcs log) = log ++ new /\ length new <= length tcs.
Proof.
  induction tcs as [|tc rest IH]; intros acc log.
  - exists []. cbn. rewrite app_nil_r. split; [reflexivity | lia].
  - rewrite handle_from_cons.
    destruct (dispatch_log tc log) as (new1 & H1 & Hlen1).
    destruct (dispatch tc log) as [[m|e] log']; cbn [snd] in *; subst log'.
    + destruct (IH (acc ++ [m]) (log ++ new1)) as (new2 & -> & Hlen2).
      exists (new1 ++ new2). rewrite app_assoc, length_app. cbn. split; [reflexivity | lia].
    + exists new1. cbn. split; [reflexivity | lia].
Qed.

Lemma handle_from_split before :
  forall acc rest log,
    handle_from acc (before ++ rest) log =
    match handle_from acc before log with
    | (Ok results, log') => handle_from results rest log'
    | (Raise e, log') => (Raise e, log')
    end.
Proof.
  induction before as [|tc before IH]; intros acc rest log; [reflexivity|].
  cbn [app]. rewrite !handle_from_cons.
  destruct (dispatch tc log) as [[m|e] log']; [apply IH | reflexivity].
Qed.


(** As long as [requests.post] raises nothing but [RequestException], the
    notifications change no result: [handle_tool_call] with its effect
    returns, or raises, exactly what [App.handle_tool_call] gives, a failed
    or refused post included. *)
Theorem notifications_change_no_result tool_calls log :
  (forall i p e, requests_post i p <> AppIO.RaisesOther e) ->
  fst (handle tool_calls log) = App.handle_tool_call other_call tool_calls.
Proof.
  intros Hpost. destruct tool_calls as [tcs|]; [|reflexivity].
  apply handle_from_pure. intros text log'. apply push_returns. exact Hpost.
Qed.

(** [handle_tool_call] keeps the requests posted before it and posts at most
    one request per tool call; calls whose name is not bound to a function of
    the module post none. *)
Theorem posts_bounded_by_calls tcs log :
  (exists new,
     snd (handle (Some tcs) log) = log ++ new /\ length new <= length tcs) /\
  (Forall (fun tc => forall f,
             App.globals_get tc.(App.function).(App.name) <> Some (App.Fn f)) tcs ->
   snd (handle (Some tcs) log) = log).
Proof.
  split; [apply handle_from_log|].
  cbn [AppIO.handle_tool_call]. generalize (@nil App.message) as acc.
  intros acc H. revert acc log.
  induction H as [|tc rest Htc _ IH]; intros acc log; [reflexivity|].
  rewrite handle_from_cons.
  destruct (dispatch_cases tc log) as [-> | (f & kwargs & Hget & _)].
  - destruct (App.dispatch other_call tc) as [m|e]; [apply IH | reflexivity].
  - destruct (Htc f Hget).
Qed.

(** When a tool call raises, the calls after it are not run, and the requests
    posted for the calls before it stay posted although [handle_tool_call]
    returns no result for them. *)
Theorem failed_call_keeps_earlier_posts before tc after log results e :
  let done := handle (Some before) log in
  fst done = Ok results ->
  fst (dispatch tc (snd done)) = Raise e ->
  handle (Some (before ++ tc :: after)) log
  = (Raise e, snd (dispatch tc (snd done))) /\
  exists posted_before posted_by_tc,
    snd done = log ++ posted_before /\
    snd (dispatch tc (snd done)) = (log ++ posted_before) ++ posted_by_tc.
Proof.
  intros done. subst done. cbn [AppIO.handle_tool_call]. intros Hdone Hraise.
  rewrite handle_from_split.
  destruct (handle_from_log before [] log) as (new1 & H1 & _).
  destruct (handle_from [] before log) as [r1 log1]. cbn [fst snd] in *. subst r1 log1.
  rewrite handle_from_cons.
  destruct (dispatch_log tc (log ++ new1)) as (new2 & H2 & _).
  destruct (dispatch tc (log ++ new1)) as [r2 log2]. cbn [fst snd] in *. subst r2 log2.
  split; [reflexivity|]. exists new1, new2. split; reflexivity.
Qed.

(** The notification of [record_user_details] called with an [email] only:
    with both credentials set, one request is posted to the Pushover endpoint
    with a timeout of 5, whose message names the defaults for the name and the
    notes. *)
Theorem defaults_in_notification tc email tok usr log :
  getenv "PUSHOVER_TOKEN" = Some tok -> App.truthy tok = true ->
  getenv "PUSHOVER_USER" = Some usr -> App.truthy usr = true ->
  tc.(App.function).(App.name) = "record_user_details" ->
  tc.(App.function).(App.arguments)
    = App.Document (App.JObject [("email", App.JString email)]) ->
  snd (dispatch tc log) =
  log ++ [ {| AppIO.url := "https://api.pushover.net/1/messages.json";
              AppIO.timeout := 5;
              AppIO.token := tok; AppIO.user := usr;
              AppIO.message :=
                App.JString ("Recording Name not provided with email " +:+ email
                             +:+ " and notes not provided") |} ].
Proof.
  intros Htok Htt Husr Hut Hname Hargs.
  unfold AppIO.dispatch, mbind, AppIO.IO_bind, AppIO.lift.
  rewrite Hargs, Hname. cbn.
  unfold AppIO.record_user_details, mbind, AppIO.IO_bind, AppIO.push.
  rewrite Htok, Husr. cbn. rewrite Htt, Hut. cbn.
  destruct (requests_post _ _); reflexivity.
Qed.

(** [push] is not among the offered tools, yet a tool call that names it is
    dispatched: with both credentials set, whatever the model put under
    [text] is posted as the message, and the tool-result is [null] unless the
    post raises something other than [RequestException]. *)
Theorem model_can_push tc text tok usr log :
  getenv "PUSHOVER_TOKEN" = Some tok -> App.truthy tok = true ->
  getenv "PUSHOVER_USER" = Some usr -> App.truthy usr = true ->
  tc.(App.function).(App.name) = "push" ->
  tc.(App.function).(App.arguments) = App.Document (App.JObject [("text", text)]) ->
  Forall (fun d => d.(App.d_name) <> "push") App.OPENAI_TOOLS /\
  snd (dispatch tc log) =
    log ++ [ {| AppIO.url := AppIO.PUSHOVER_ENDPOINT; AppIO.timeout := 5;
                AppIO.token := tok; AppIO.user := usr; AppIO.message := text |} ] /\
  ((forall e, requests_post (length log)
                {| AppIO.url := AppIO.PUSHOVER_ENDPOINT; AppIO.timeout := 5;
                   AppIO.token := tok; AppIO.user := usr; AppIO.message := text |}
              <> AppIO.RaisesOther e) ->
   fst (dispatch tc log) = Ok (tool_message "null" tc.(App.id))).
Proof.
  intros Htok Htt Husr Hut Hname Hargs.
  split; [repeat constructor; discriminate|].
  unfold AppIO.dispatch, mbind, AppIO.IO_bind, AppIO.lift.
  rewrite Hargs, Hname. cbn -[AppIO.push].
  unfold mbind, AppIO.IO_bind, mret, AppIO.IO_ret.
  rewrite (push_with_credentials text tok usr log Htok Htt Husr Hut). cbn zeta.
  destruct (requests_post _ _) eqn:Hpost; cbn; (split; [reflexivity|]); intros H.
  - reflexivity.
  - reflexivity.
  - exfalso. eapply H. reflexivity.
Qed.

End Effects.

(** ** At concrete inputs *)


Lemma notifications_change_no_result_witness :
  fst (AppIO.handle_tool_call with_credentials network_down no_str no_imports
         (Some [email_only; details_without_email]) [])
  = App.handle_tool_call no_imports (Some [email_only; details_without_email]).
Proof.
  apply (notifications_change_no_result with_credentials network_down no_str no_imports
           (Some [email_only; details_without_email]) []).
  intros i p e. discriminate.
Defined.

Lemma posts_bounded_by_calls_witness :
  snd (AppIO.handle_tool_call with_credentials always_responds no_str no_imports
         (Some [lookup_weather]) [posted (App.JString "earlier")])
  = [posted (App.JString "earlier")].
Proof.
  apply (proj2 (posts_bounded_by_calls with_credentials always_responds no_str no_imports
                  [lookup_weather] [posted (App.JString "earlier")])).
  constructor; [|constructor]. intros f. discriminate.
Defined.

Lemma failed_call_keeps_earlier_posts_witness :
  AppIO.handle_tool_call with_credentials always_responds no_str no_imports
    (Some ([email_only] ++ details_without_email :: [good_question])) []
  = (Raise TypeError,
     [posted (App.JString
        "Recording Name not provided with email ann@example.org and notes not provided")]).
Proof.
  exact (proj1 (failed_call_keeps_earlier_posts with_credentials always_responds no_str
                  no_imports [email_only] details_without_email [good_question] []
                  [tool_message recorded_ok "call_6"] TypeError eq_refl eq_refl)).
Defined.

Lemma defaults_in_notification_witness :
  snd (AppIO.dispatch with_credentials always_responds no_str no_imports email_only [])
  = [posted (App.JString
       "Recording Name not provided with email ann@example.org and notes not provided")].
Proof.
  exact (defaults_in_notification with_credentials always_responds no_str no_imports
           email_only "ann@example.org" "tok" "usr" []
           eq_refl eq_refl eq_refl eq_refl eq_refl eq_refl).
Defined.

Lemma model_can_push_witness :
  snd (AppIO.dispatch with_credentials always_responds no_str no_imports
         (push_call (App.JString "hello")) [])
  = [posted (App.JString "hello")] /\
  fst (AppIO.dispatch with_credentials always_responds no_str no_imports
         (push_call (App.JString "hello")) [])
  = Ok (tool_message "null" "call_7").
Proof.
  destruct (model_can_push with_credentials always_responds no_str no_imports
              (push_call (App.JString "hello")) (App.JString "hello") "tok" "usr" []
              eq_refl eq_refl eq_refl eq_refl eq_refl eq_refl) as (_ & Hposted & Hresult).
  split; [exact Hposted|]. apply Hresult. intros e. discriminate.
Defined.

End ToolEffects.

(** * Properties of loading the persona *)
Module PersonaLoading.
Import Loader MoreProps.

Lemma extract_pages_texts texts :
  forall out,
    extract_pages out (map Extracted texts) = Ok (out ++ kept_texts texts).
Proof.
  induction texts as [|t texts IH]; intros out; cbn.
  - rewrite app_nil_r. reflexivity.
  - rewrite IH. unfold kept_texts. cbn.
    destruct (App.truthy (or_else t EmptyString)); [|reflexivity].
    rewrite <- app_assoc. reflexivity.
Qed.

Lemma extract_pages_raises pages :
  forall out e,
    In (ExtractRaises e) pages ->
    exists e', In (ExtractRaises e') pages /\ extract_pages out pages = Raise e'.
Proof.
  induction pages as [|p pages IH]; intros out e Hin; [destruct Hin|].
  destruct p as [t|e0].
  - destruct Hin as [Hp|Hin]; [discriminate|].
    cbn [extract_pages].
    destruct (IH (if App.truthy (or_else t EmptyString)
                  then out ++ [or_else t EmptyString] else out) e Hin)
      as (e' & Hin' & Hraise).
    exists e'. split; [right; exact Hin' | exact Hraise].
  - exists e0. split; [left; reflexivity | reflexivity].
Qed.

Section Files.

Variable read_file : string -> read_outcome.
Variable path_exists : string -> bool.
Variable PdfReader : string -> pdf.
Variable OpenAI : result unit.

(** When every page of the export extracts, [_load_linkedin_pdf] returns
    the texts of the pages that have one, in page order, joined by newlines;
    pages without text leave no empty line. *)
Theorem pdf_text_is_joined_pages path texts :
  path_exists path = true ->
  PdfReader path = Pages (map Extracted texts) ->
  _load_linkedin_pdf path_exists PdfReader path = Ok (join nl (kept_texts texts)).
Proof.
  intros Hexists Hpdf. unfold _load_linkedin_pdf.
  rewrite Hexists, Hpdf. cbn [negb]. rewrite extract_pages_texts. reflexivity.
Qed.

(** When the extraction of some page fails with an [Exception],
    [_load_linkedin_pdf] returns the empty string: the text of the pages
    extracted before the failure is dropped with it. *)
Theorem pdf_failure_gives_empty path pages e :
  path_exists path = true ->
  PdfReader path = Pages pages ->
  In (ExtractRaises e) pages ->
  (forall e', In (ExtractRaises e') pages -> is_Exception e' = true) ->
  _load_linkedin_pdf path_exists PdfReader path = Ok EmptyString.
Proof.
  intros Hexists Hpdf Hin Hexc. unfold _load_linkedin_pdf.
  rewrite Hexists, Hpdf. cbn [negb].
  destruct (extract_pages_raises pages [] e Hin) as (e' & Hin' & ->).
  rewrite (Hexc e' Hin'). reflexivity.
Qed.

(** A persona built while neither file can be had, the export missing and
    the summary unreadable, is built all the same, and its system prompt is
    the introduction followed by the closing line, with no Summary and no
    LinkedIn section. *)
Theorem persona_without_files :
  OpenAI = Ok tt ->
  path_exists "me/linkedin.pdf" = false ->
  read_file "me/summary.txt" = RaisesOSError ->
  exists self,
    init read_file path_exists PdfReader OpenAI = Ok self /\
    App.system_prompt self = bare_prompt "Ed Donner".
Proof.
  intros Hclient Hexists Hread.
  unfold init, _load_linkedin_pdf, _read_text_file.
  rewrite Hclient, Hexists, Hread. cbn.
  eexists. split; reflexivity.
Qed.

End Files.

(** ** At concrete inputs *)

Lemma pdf_text_is_joined_pages_witness :
  _load_linkedin_pdf (fun _ => true) (fun _ => Pages three_pages) "me/linkedin.pdf"
  = Ok ("Page one" +:+ nl +:+ "Page three").
Proof.
  exact (pdf_text_is_joined_pages (fun _ => true) (fun _ => Pages three_pages)
           "me/linkedin.pdf" [Some "Page one"; None; Some "Page three"]
           eq_refl eq_refl).
Defined.

Lemma pdf_failure_gives_empty_witness :
  _load_linkedin_pdf (fun _ => true) (fun _ => Pages torn_export) "me/linkedin.pdf"
  = Ok EmptyString.
Proof.
  apply (pdf_failure_gives_empty (fun _ => true) (fun _ => Pages torn_export)
           "me/linkedin.pdf" torn_export (RemoteError "bad xref") eq_refl eq_refl).
  - right. left. reflexivity.
  - intros e' [H|[H|[]]]; [discriminate|]. injection H as <-. reflexivity.
Defined.

Lemma persona_without_files_witness :
  exists self,
    init no_file (fun _ => false) (fun _ => Pages []) (Ok tt) = Ok self /\
    App.system_prompt self = bare_prompt "Ed Donner".
Proof.
  exact (persona_without_files no_file (fun _ => false) (fun _ => Pages []) (Ok tt)
           eq_refl eq_refl eq_refl).
Defined.

End PersonaLoading.

(** * Further properties of the research pipeline *)
Module PipelineMore.
Import DeepResearch ResearchProps MoreResearchProps DeepResearchProofs.

(** The loop stops at the first task that raised, with what it raised. *)
Lemma collect_raises completed :
  forall results e,
    In (Raise e) completed ->
    exists e', In (Raise e') completed /\ collect results completed = Raise e'.
Proof.
  induction completed as [|task rest IH]; intros results e Hin; [destruct Hin|].
  destruct task as [r|e0].
  - destruct Hin as [Hp|Hin]; [discriminate|].
    cbn [collect result_bind].
    destruct (IH (match r with
                  | Some summary => results ++ [summary]
                  | None => results
                  end) e Hin) as (e' & Hin' & Hraise).
    exists e'. split; [right; exact Hin' | exact Hraise].
  - exists e0. split; [left; reflexivity | reflexivity].
Qed.

Section Executor.

Variable Runner_run_search : nat -> Agent -> string -> result string.
Variable as_completed :
  list (result (option string)) -> list (result (option string)).
Hypothesis as_completed_perm : forall tasks, as_completed tasks ≡ₚ tasks.

Local Abbreviation search := (search Runner_run_search).
Local Abbreviation perform_searches :=
  (perform_searches Runner_run_search as_completed).

Lemma search_raises i item e :
  search i item = Raise e ->
  Runner_run_search i search_agent (search_input item) = Raise e /\
  is_Exception e = false.
Proof.
  unfold DeepResearch.search.
  destruct (Runner_run_search i search_agent (search_input item)) as [out|e0];
    [discriminate|].
  destruct (is_Exception e0) eqn:He; [discriminate|].
  intros [= <-]. split; [reflexivity | exact He].
Qed.

Lemma search_returned i item :
  (forall e, Runner_run_search i search_agent (search_input item) = Raise e ->
             is_Exception e = true) ->
  returned (search i item).
Proof.
  intros Hexc. unfold DeepResearch.search, returned.
  destruct (Runner_run_search i search_agent (search_input item)) as [out|e];
    [eexists; reflexivity|].
  rewrite (Hexc e eq_refl). eexists. reflexivity.
Qed.

Lemma summaries_successes items :
  forall i,
    summaries (imap (fun j => search (i + j)) items)
    = successes Runner_run_search i items.
Proof.
  induction items as [|item rest IH]; intros i; [reflexivity|].
  rewrite imap_cons. cbn [successes]. unfold summaries. cbn [omap list_omap].
  rewrite Nat.add_0_r.
  assert (Hrest : omap summary_of (imap ((fun j => search (i + j)) ∘ S) rest)
                  = successes Runner_run_search (S i) rest).
  { rewrite <- IH. unfold summaries. f_equal. apply imap_ext.
    intros j x _. cbn. f_equal. lia. }
  rewrite Hrest. unfold DeepResearch.search.
  destruct (Runner_run_search i search_agent (search_input item)) as [out|e]; cbn.
  - reflexivity.
  - destruct (is_Exception e); reflexivity.
Qed.

Lemma searches_all_return plan :
  (forall i item e,
     plan.(searches) !! i = Some item ->
     Runner_run_search i search_agent (search_input item) = Raise e ->
     is_Exception e = true) ->
  Forall returned (imap search plan.(searches)).
Proof.
  intros Hexc. apply Forall_lookup_2. intros i task Hi.
  apply list_lookup_imap_Some in Hi as (item & Hitem & ->).
  apply search_returned. intros e He. eapply Hexc; eassumption.
Qed.

(** When the units that fail do so with an [Exception], the list
    [perform_searches] returns holds exactly the summaries of the units that
    succeeded, each as often as it was produced, in some order: none is
    lost, repeated or made up. *)
Theorem results_are_the_successes plan :
  (forall i item e,
     plan.(searches) !! i = Some item ->
     Runner_run_search i search_agent (search_input item) = Raise e ->
     is_Exception e = true) ->
  exists results,
    perform_searches plan = Ok results /\
    results ≡ₚ successes Runner_run_search 0 plan.(searches).
Proof.
  intros Hexc.
  destruct (perform_searches_returned Runner_run_search as_completed as_completed_perm
              plan (searches_all_return plan Hexc)) as (results & Hrun & Hperm).
  exists results. split; [exact Hrun|].
  rewrite Hperm. rewrite <- (summaries_successes (searches plan) 0). reflexivity.
Qed.

(** What [except Exception] does not catch is not swallowed: when some unit
    raises an exception that is not an [Exception], such as a cancellation,
    [perform_searches] raises an exception of that kind and returns no
    result, whatever the other units did. *)
Theorem cancellation_escapes plan i item e :
  plan.(searches) !! i = Some item ->
  Runner_run_search i search_agent (search_input item) = Raise e ->
  is_Exception e = false ->
  exists e', perform_searches plan = Raise e' /\ is_Exception e' = false.
Proof.
  intros Hitem Hrun Hexc.
  assert (Htask : In (Raise e) (as_completed (imap search (searches plan)))).
  { apply list_elem_of_In. rewrite as_completed_perm.
    apply list_elem_of_lookup. exists i.
    rewrite list_lookup_imap, Hitem. cbn. unfold DeepResearch.search.
    rewrite Hrun, Hexc. reflexivity. }
  destruct (collect_raises _ [] e Htask) as (e' & Hin & Hcollect).
  exists e'. split; [exact Hcollect|].
  apply list_elem_of_In in Hin. rewrite as_completed_perm in Hin.
  apply list_elem_of_lookup in Hin as [j Hj].
  apply list_lookup_imap_Some in Hj as (item' & _ & Heq).
  symmetry in Heq. apply search_raises in Heq. apply Heq.
Qed.

(** A plan without items gives an empty result, and no search is run. *)
Theorem empty_plan_no_results plan :
  plan.(searches) = [] -> perform_searches plan = Ok [].
Proof.
  intros Hempty. unfold DeepResearch.perform_searches. rewrite Hempty. cbn [imap].
  pose proof (as_completed_perm []) as Hperm.
  apply Permutation_nil_r in Hperm. rewrite Hperm. reflexivity.
Qed.

End Executor.

Section Pipeline.

Variable Runner_run_plan : Agent -> string -> result WebSearchPlan.
Variable Runner_run_search : nat -> Agent -> string -> result string.
Variable Runner_run_report : Agent -> string -> result ReportData.
Variable Runner_run_email : Agent -> string -> result unit.
Variable gen_trace_id : string.
Variable str_of_list : list string -> string.
Variable as_completed :
  list (result (option string)) -> list (result (option string)).

Local Abbreviation run :=
  (run Runner_run_plan Runner_run_search Runner_run_report Runner_run_email
       gen_trace_id str_of_list as_completed).

(** When a stage fails, [run] raises what the stage raised, after having
    yielded the trace link and the status lines of the stages completed
    before: one line when planning fails, two when the searches escape,
    three when the writer fails, four when the email fails.  The report's
    markdown is yielded in none of these cases, not even when only the email
    failed. *)
Theorem failed_stage_cuts_events query e :
  snd (run query) = Raise e ->
  (plan_searches Runner_run_plan query = Raise e /\
   fst (run query) = yielded_before_failure gen_trace_id 1) \/
  (exists plan,
     plan_searches Runner_run_plan query = Ok plan /\
     perform_searches Runner_run_search as_completed plan = Raise e /\
     fst (run query) = yielded_before_failure gen_trace_id 2) \/
  (exists plan results,
     plan_searches Runner_run_plan query = Ok plan /\
     perform_searches Runner_run_search as_completed plan = Ok results /\
     write_report Runner_run_report str_of_list query results = Raise e /\
     fst (run query) = yielded_before_failure gen_trace_id 3) \/
  (exists plan results report,
     plan_searches Runner_run_plan query = Ok plan /\
     perform_searches Runner_run_search as_completed plan = Ok results /\
     write_report Runner_run_report str_of_list query results = Ok report /\
     send_email Runner_run_email report = Raise e /\
     fst (run query) = yielded_before_failure gen_trace_id 4).
Proof.
  unfold DeepResearch.run, mbind, G_bind, yield, await.
  destruct (plan_searches Runner_run_plan query) as [plan|e1] eqn:Hplan.
  - destruct (perform_searches Runner_run_search as_completed plan) as [results|e2]
      eqn:Hsearch.
    + destruct (write_report Runner_run_report str_of_list query results) as [report|e3]
        eqn:Hwrite.
      * destruct (send_email Runner_run_email report) as [[]|e4] eqn:Hsend.
        -- discriminate.
        -- intros [= <-]. right. right. right. exists plan, results, report.
           repeat split; assumption.
      * intros [= <-]. right. right. left. exists plan, results.
        repeat split; assumption.
    + intros [= <-]. right. left. exists plan. repeat split; assumption.
  - intros [= <-]. left. split; reflexivity.
Qed.

(** Failed searches do not fail the pipeline: when the planner, the writer
    and the email agent succeed and the search units that fail do so with an
    [Exception], [run] runs to its end and yields all six events, even when
    every search failed. *)
Theorem run_survives_failed_searches query plan :
  (forall tasks, as_completed tasks ≡ₚ tasks) ->
  Runner_run_plan planner_agent ("Query: " +:+ query) = Ok plan ->
  (forall i item e,
     plan.(searches) !! i = Some item ->
     Runner_run_search i search_agent (search_input item) = Raise e ->
     is_Exception e = true) ->
  (forall input, exists report, Runner_run_report writer_agent input = Ok report) ->
  (forall input, Runner_run_email email_agent input = Ok tt) ->
  snd (run query) = Ok tt /\ length (fst (run query)) = 6.
Proof.
  intros Hperm Hplan Hexc Hwriter Hemail.
  destruct (perform_searches_returned Runner_run_search as_completed Hperm plan
              (searches_all_return Runner_run_search plan Hexc))
    as (results & Hsearch & _).
  unfold DeepResearch.run, mbind, G_bind, yield, await, plan_searches.
  rewrite Hplan. cbn [result_bind]. rewrite Hsearch.
  unfold write_report, send_email.
  destruct (Hwriter ("Original query: " +:+ query +:+ nl +:+ "Summarized search results: "
                     +:+ str_of_list results)) as [report ->].
  cbn [result_bind]. rewrite Hemail. cbn. split; reflexivity.
Qed.

End Pipeline.

(** [deep_research.run] hands on what the manager's generator yields, event
    by event, and ends as it ends: the same events in the same order, and
    the same exception if there is one. *)
Theorem ui_relays_every_event (manager_run : G unit) :
  DeepResearchUI.run manager_run = manager_run.
Proof.
  destruct manager_run as [events ending]. unfold DeepResearchUI.run. cbn [fst snd].
  induction events as [|chunk rest IH]; [reflexivity|].
  cbn [DeepResearchUI.relay]. unfold mbind, G_bind, yield in *.
  rewrite IH. reflexivity.
Qed.

(** ** At concrete inputs *)

Lemma results_are_the_successes_witness :
  exists results,
    perform_searches (times_out_at 1) last_first three_items = Ok results /\
    results ≡ₚ [search_input (item_of "history"); search_input (item_of "risks")].
Proof.
  apply (results_are_the_successes (times_out_at 1) last_first last_first_perm
           three_items).
  intros i item e _. unfold times_out_at.
  destruct (Nat.eqb i 1); [|discriminate]. intros [= <-]. reflexivity.
Defined.

Lemma cancellation_escapes_witness :
  exists e',
    perform_searches first_cancelled last_first three_items = Raise e' /\
    is_Exception e' = false.
Proof.
  exact (cancellation_escapes first_cancelled last_first last_first_perm three_items
           0 (item_of "history") CancelledError eq_refl eq_refl eq_refl).
Defined.

Lemma empty_plan_no_results_witness :
  perform_searches all_time_out last_first no_items = Ok [].
Proof.
  exact (empty_plan_no_results all_time_out last_first last_first_perm no_items eq_refl).
Defined.

Lemma failed_stage_cuts_events_witness :
  exists report,
    send_email cannot_send report = Raise (RemoteError "smtp") /\
    fst (run plans_three (times_out_at 1) writes_report cannot_send "trace_1"
           comma_separated last_first "solar power")
    = [ "View trace: https://platform.openai.com/traces/trace?trace_id=trace_1";
        "Searches planned, starting to search...";
        "Searches complete, writing report...";
        "Report written, sending email..." ].
Proof.
  destruct (failed_stage_cuts_events plans_three (times_out_at 1) writes_report
              cannot_send "trace_1" comma_separated last_first "solar power"
              (RemoteError "smtp") eq_refl)
    as [[H _] | [(plan & _ & H & _) | [(plan & results & _ & _ & H & _)
       | (plan & results & report & _ & _ & _ & Hsend & Hevents)]]].
  - discriminate H.
  - exists a_report. split; reflexivity.
  - exists a_report. split; reflexivity.
  - exists report. split; [exact Hsend | exact Hevents].
Defined.

Lemma run_survives_failed_searches_witness :
  let events := run plans_three all_time_out writes_report sends "trace_1"
                  comma_separated last_first "solar power" in
  snd events = Ok tt /\ length (fst events) = 6.
Proof.
  apply (run_survives_failed_searches plans_three all_time_out writes_report sends
           "trace_1" comma_separated last_first "solar power" three_items
           last_first_perm eq_refl).
  - intros i item e _ [= <-]. reflexivity.
  - intros input. exists a_report. reflexivity.
  - intros input. reflexivity.
Defined.

End PipelineMore.
